(** * Remote command server: session protocol and command handlers

    A shallow embedding of [server.py] (class [RemoteCommandServer]):
    the per-connection loop [handle_client], the registry [commands] and
    the twelve handlers.  Python objects that travel through the code are
    modelled by [value]; exceptions by the error monad [res]; everything the
    code calls but does not define (the [json] codec, [os], [psutil],
    [platform], [subprocess], [socket]) is a field of the record [Host]. *)

From Stdlib Require Import ZArith String Ascii List Bool SpecFloat Lia.
From Stdlib.Strings Require Import Byte.
From stdpp Require Import base option list gmap strings pretty.

#[local] Open Scope string_scope.
#[local] Open Scope Z_scope.
#[local] Open Scope list_scope.

(** ** Python values *)

Module Py.

(** The objects [json.loads] can return and [json.dumps] can print.  A
    [dict] keeps its insertion order, as Python's does; a [float] is an
    IEEE-754 binary64 value. *)
#[warnings="-register-all"]
Inductive value : Type :=
| VNone
| VBool (b : bool)
| VInt (z : Z)
| VFloat (f : spec_float)
| VStr (s : string)
| VList (l : list value)
| VDict (d : list (string * value)).

(** [d.get(k)] on the association list of a dict: the first binding. *)
Fixpoint dict_get (k : string) (d : list (string * value)) : option value :=
  match d with
  | [] => None
  | (k', v) :: rest => if String.eqb k k' then Some v else dict_get k rest
  end.

(** [d[k] = v]: overwrite in place, or append a new binding. *)
Fixpoint dict_set (k : string) (v : value) (d : list (string * value))
  : list (string * value) :=
  match d with
  | [] => [(k, v)]
  | (k', v') :: rest =>
      if String.eqb k k' then (k, v) :: rest else (k', v') :: dict_set k v rest
  end.

(** [d.pop(k, None)]: the dict without any binding of [k]. *)
Fixpoint dict_del (k : string) (d : list (string * value))
  : list (string * value) :=
  match d with
  | [] => []
  | (k', v') :: rest =>
      if String.eqb k k' then dict_del k rest else (k', v') :: dict_del k rest
  end.

(** [type(v).__name__] *)
Definition type_name (v : value) : string :=
  match v with
  | VNone => "NoneType"
  | VBool _ => "bool"
  | VInt _ => "int"
  | VFloat _ => "float"
  | VStr _ => "str"
  | VList _ => "list"
  | VDict _ => "dict"
  end.

(** [bool(v)], the test behind [if not v]. *)
Definition truthy (v : value) : bool :=
  match v with
  | VNone => false
  | VBool b => b
  | VInt z => negb (z =? 0)
  | VFloat (S754_zero _) => false
  | VFloat _ => true
  | VStr s => negb (String.eqb s "")
  | VList l => match l with [] => false | _ => true end
  | VDict d => match d with [] => false | _ => true end
  end.

(** [v == s] for a [str] [s]: only an equal [str] compares equal. *)
Definition eq_str (v : value) (s : string) : bool :=
  match v with
  | VStr s' => String.eqb s' s
  | _ => false
  end.

(** ** Exceptions *)

(** The subclasses of [Exception] the code tells apart, and one class for
    all the others. *)
Inductive exn_class : Type :=
| AttributeError
| TypeError
| JSONDecodeError
| UnicodeDecodeError
| OSError
| NoSuchProcess
| AccessDenied
| ZombieProcess
| OtherException.

#[global] Instance exn_class_eq_dec : EqDecision exn_class.
Proof. solve_decision. Defined.

Record exn : Type := Exn { exn_class_of : exn_class; exn_msg : string }.

(** A computation returns or raises. *)
Inductive res (A : Type) : Type :=
| Ret (a : A)
| Raise (e : exn).
Arguments Ret {A} a.
Arguments Raise {A} e.

Definition res_bind {A B : Type} (f : A -> res B) (m : res A) : res B :=
  match m with
  | Ret a => f a
  | Raise e => Raise e
  end.

#[global] Instance res_ret : MRet res := @Ret.
#[global] Instance res_mbind : MBind res := @res_bind.

(** [try: m  except Exception as e: h e] *)
Definition try_except {A : Type} (m : res A) (h : exn -> res A) : res A :=
  match m with
  | Ret a => Ret a
  | Raise e => h e
  end.

(** [obj.get(key, dflt)]: a dict method; any other object has no [get]. *)
Definition get (obj : value) (key : string) (dflt : value) : res value :=
  match obj with
  | VDict d => Ret (default dflt (dict_get key d))
  | _ => Raise (Exn AttributeError
                  ("'" +:+ type_name obj +:+ "' object has no attribute 'get'"))
  end.

End Py.

Export Py.

(** ** The host: library and operating-system calls

    What the server calls and does not define.  Each field answers as the
    call would: it returns a value or raises.  An [iteration] is what a
    [for] loop sees of a generator: the items it yields and, when the
    generator fails instead of finishing, the exception that ends it. *)

Record iteration (A : Type) : Type :=
  Iteration { items : list A; stops_with : option exn }.
Arguments Iteration {A} items stops_with.
Arguments items {A} i.
Arguments stops_with {A} i.

Record stat_result : Type :=
  { st_size : value; st_ctime : value; st_mtime : value; st_atime : value }.

Record disk_usage : Type :=
  { du_total : value; du_used : value; du_free : value }.

Record svmem : Type :=
  { vm_total : value; vm_available : value; vm_used : value; vm_percent : value }.

Record sswap : Type :=
  { sm_total : value; sm_used : value; sm_percent : value }.

Record snicaddr : Type :=
  { family_str : string;        (* str(addr.family) *)
    address : value; netmask : value; broadcast : value }.

Record snicstats : Type := { isup : value }.

Record snetio : Type := { bytes_sent : value; bytes_recv : value }.

Record completed_process : Type :=
  { returncode : Z; stdout : value; stderr : value }.

Record Host : Type :=
  { (* codec *)
    bytes_decode : list byte -> res string;        (* data.decode('utf-8') *)
    json_loads : string -> res value;
    json_dumps : value -> res string;
    str_encode : string -> res (list byte);        (* s.encode('utf-8') *)
    (* builtins *)
    str_of : value -> string;                      (* str(x) of a non-str *)
    str_lower : string -> string;                  (* s.lower() *)
    truediv : value -> value -> res value;         (* a / b *)
    mul : value -> value -> res value;             (* a * b *)
    sub : value -> value -> res value;             (* a - b *)
    sorted_by : (value -> res value) -> bool -> list value -> res (list value);
                                                   (* sorted(l, key=, reverse=) *)
    (* platform, os, shutil *)
    platform_system : res string;
    platform_node : res value;
    platform_release : res value;
    platform_version : res value;
    platform_machine : res value;
    platform_processor : res value;
    os_cpu_count : res value;
    os_getcwd : res value;
    os_listdir : value -> res (list string);
    os_stat : value -> res stat_result;
    os_walk : value -> iteration (string * list string * list string);
    path_join : string -> string -> string;        (* os.path.join of two str *)
    path_isdir : string -> bool;                   (* os.path.isdir of a str *)
    isdir_other : value -> res bool;               (* os.path.isdir of a non-str *)
    os_path_isfile : value -> res bool;
    os_path_islink : value -> res bool;
    os_path_exists : value -> res bool;
    os_path_basename : value -> res value;
    os_path_abspath : value -> res value;
    shutil_disk_usage : value -> res disk_usage;
    (* psutil, time, socket, subprocess *)
    psutil_process_iter : iteration (res value);   (* each item: proc.info *)
    psutil_virtual_memory : res svmem;
    psutil_swap_memory : res sswap;
    psutil_net_if_addrs : res (list (string * list snicaddr));
    psutil_net_if_stats : res (gmap string snicstats);
    psutil_net_io_counters : res (gmap string snetio);
    psutil_boot_time : res value;
    time_time : res value;
    socket_gethostname : res value;
    socket_getfqdn : res value;
    subprocess_run : list value -> res completed_process }.

(** ** Command handlers *)

Module Handlers.

Section WithHost.
Variable h : Host.

(** The two envelopes every handler but [ping_host] answers with. *)
Definition success (result : value) : value :=
  VDict [("status", VStr "success"); ("result", result)].

Definition failure (msg : string) : value :=
  VDict [("status", VStr "error"); ("error", VStr msg)].

(** [except Exception as e: return {'status': 'error', 'error': str(e)}] *)
Definition guarded (body : res value) : res value :=
  try_except body (fun e => Ret (failure (exn_msg e))).

(** [os.path.join(path, file)] with [file] a str. *)
Definition os_path_join (path : value) (file : string) : res string :=
  match path with
  | VStr p => Ret (path_join h p file)
  | _ => Raise (Exn TypeError
                  ("expected str, bytes or os.PathLike object, not "
                     +:+ type_name path))
  end.

Definition os_path_isdir (path : value) : res bool :=
  match path with
  | VStr p => Ret (path_isdir h p)
  | _ => isdir_other h path
  end.

(** [s.lower()]: a str method. *)
Definition lower (v : value) : res string :=
  match v with
  | VStr s => Ret (str_lower h s)
  | _ => Raise (Exn AttributeError
                  ("'" +:+ type_name v +:+ "' object has no attribute 'lower'"))
  end.

(** [needle in hay] on two strs. *)
Fixpoint contains (needle hay : string) : bool :=
  if String.prefix needle hay then true
  else match hay with
       | EmptyString => false
       | String _ rest => contains needle rest
       end.

(** [l[:stop]] *)
Definition slice_bound (z : Z) (len : nat) : nat :=
  Z.to_nat (if z <? 0 then Z.max 0 (Z.of_nat len + z) else Z.min z (Z.of_nat len)).

Definition slice_to (l : list value) (stop : value) : res (list value) :=
  match stop with
  | VNone => Ret l
  | VInt z => Ret (take (slice_bound z (length l)) l)
  | VBool b => Ret (take (slice_bound (if b then 1 else 0) (length l)) l)
  | _ => Raise (Exn TypeError
                  "slice indices must be integers or None or have an __index__ method")
  end.

Definition get_system_info (args : value) : res value :=
  system ← platform_system h;
  node ← platform_node h;
  release ← platform_release h;
  version ← platform_version h;
  machine ← platform_machine h;
  processor ← platform_processor h;
  cpu_count ← os_cpu_count h;
  cwd ← os_getcwd h;
  Ret (success (VDict [("system", VStr system); ("node", node);
                       ("release", release); ("version", version);
                       ("machine", machine); ("processor", processor);
                       ("cpu_count", cpu_count); ("cwd", cwd)])).

Fixpoint list_directory_loop (path : value) (files : list string)
    (file_info : list value) : res (list value) :=
  match files with
  | [] => Ret file_info
  | file :: rest =>
      full_path ← os_path_join path file;
      stats ← os_stat h (VStr full_path);
      is_dir ← os_path_isdir (VStr full_path);
      let info := VDict [("name", VStr file); ("size", st_size stats);
                         ("modified", st_mtime stats); ("is_dir", VBool is_dir)] in
      list_directory_loop path rest (file_info ++ [info])
  end.

Definition list_directory (args : value) : res value :=
  guarded (
    path ← get args "path" (VStr ".");
    files ← os_listdir h path;
    file_info ← list_directory_loop path files [];
    Ret (success (VList file_info))).

Definition get_disk_space (args : value) : res value :=
  guarded (
    path ← get args "path" (VStr ".");
    usage ← shutil_disk_usage h path;
    ratio ← truediv h (du_used usage) (du_total usage);
    percent_used ← mul h ratio (VInt 100);
    Ret (success (VDict [("total", du_total usage); ("used", du_used usage);
                         ("free", du_free usage);
                         ("percent_used", percent_used)]))).

(** The inner [try] of the process loop lets the three psutil exceptions
    pass and nothing else. *)
Definition psutil_skipped (e : exn) : bool :=
  match exn_class_of e with
  | NoSuchProcess | AccessDenied | ZombieProcess => true
  | _ => false
  end.

Fixpoint process_loop (procs : list (res value)) (stop : option exn)
    (processes : list value) : res (list value) :=
  match procs with
  | [] => match stop with
          | None => Ret processes
          | Some e => Raise e
          end
  | info :: rest =>
      match info with
      | Ret pinfo => process_loop rest stop (processes ++ [pinfo])
      | Raise e =>
          if psutil_skipped e then process_loop rest stop processes
          else Raise e
      end
  end.

Definition memory_key (p : value) : res value := get p "memory_percent" (VInt 0).

Definition get_process_list (args : value) : res value :=
  guarded (
    limit ← get args "limit" (VInt 10);
    processes ← process_loop (items (psutil_process_iter h))
                  (stops_with (psutil_process_iter h)) [];
    ordered ← sorted_by h memory_key true processes;
    processes ← slice_to ordered limit;
    Ret (success (VList processes))).

Definition get_memory_info (args : value) : res value :=
  guarded (
    vm ← psutil_virtual_memory h;
    sm ← psutil_swap_memory h;
    Ret (success (VDict [("total", vm_total vm); ("available", vm_available vm);
                         ("used", vm_used vm); ("percent", vm_percent vm);
                         ("swap_total", sm_total sm); ("swap_used", sm_used sm);
                         ("swap_percent", sm_percent sm)]))).

Definition addr_info (addr : snicaddr) : value :=
  VDict [("family", VStr (family_str addr)); ("address", address addr);
         ("netmask", netmask addr); ("broadcast", broadcast addr)].

Definition interface_info (stats : gmap string snicstats)
    (io_counters : gmap string snetio) (interface : string)
    (addresses : list snicaddr) : value :=
  let base := [("addresses", VList (map addr_info addresses));
               ("is_up", match stats !! interface with
                         | Some st => isup st
                         | None => VNone
                         end)] in
  VDict match io_counters !! interface with
        | Some io => dict_set "bytes_recv" (bytes_recv io)
                       (dict_set "bytes_sent" (bytes_sent io) base)
        | None => base
        end.

Fixpoint network_loop (stats : gmap string snicstats)
    (io_counters : gmap string snetio)
    (interfaces : list (string * list snicaddr))
    (result : list (string * value)) : list (string * value) :=
  match interfaces with
  | [] => result
  | (interface, addresses) :: rest =>
      network_loop stats io_counters rest
        (dict_set interface
           (interface_info stats io_counters interface addresses) result)
  end.

Definition get_network_info (args : value) : res value :=
  guarded (
    interfaces ← psutil_net_if_addrs h;
    stats ← psutil_net_if_stats h;
    io_counters ← psutil_net_io_counters h;
    Ret (success (VDict (network_loop stats io_counters interfaces [])))).

Definition get_file_info (args : value) : res value :=
  guarded (
    path ← get args "path" VNone;
    if negb (truthy path) then Ret (failure "No path specified") else
    present ← os_path_exists h path;
    if negb present then Ret (failure "File not found") else
    stats ← os_stat h path;
    name ← os_path_basename h path;
    abspath ← os_path_abspath h path;
    is_dir ← os_path_isdir path;
    is_file ← os_path_isfile h path;
    is_symlink ← os_path_islink h path;
    Ret (success (VDict [("name", name); ("path", abspath);
                         ("size", st_size stats); ("created", st_ctime stats);
                         ("modified", st_mtime stats);
                         ("accessed", st_atime stats);
                         ("is_dir", VBool is_dir); ("is_file", VBool is_file);
                         ("is_symlink", VBool is_symlink)]))).

Definition get_uptime (args : value) : res value :=
  guarded (
    uptime_seconds ← psutil_boot_time h;
    now ← time_time h;
    elapsed ← sub h now uptime_seconds;
    Ret (success (VDict [("boot_time", uptime_seconds);
                         ("uptime_seconds", elapsed)]))).

Definition get_hostname (args : value) : res value :=
  guarded (
    hostname ← socket_gethostname h;
    fqdn ← socket_getfqdn h;
    Ret (success (VDict [("hostname", hostname); ("fqdn", fqdn)]))).

(** No [try] here: what [args.get] raises leaves the handler. *)
Definition echo_message (args : value) : res value :=
  message ← get args "message" (VStr "");
  Ret (success message).

(** The answer of [ping_host] once the subprocess has run: both streams,
    whatever the status. *)
Definition ping_response (result : completed_process) : value :=
  VDict [("status", VStr (if returncode result =? 0 then "success" else "error"));
         ("result", stdout result);
         ("error", stderr result)].

Definition ping_host (args : value) : res value :=
  guarded (
    host ← get args "host" VNone;
    if negb (truthy host) then Ret (failure "No host specified") else
    count ← get args "count" (VInt 4);
    system ← platform_system h;
    let cmd := if String.eqb (str_lower h system) "windows"
               then [VStr "ping"; VStr "-n"; VStr (str_of h count); host]
               else [VStr "ping"; VStr "-c"; VStr (str_of h count); host] in
    result ← subprocess_run h cmd;
    Ret (ping_response result)).

(** The inner loop of [find_file]: [for name in files + dirs]. *)
Fixpoint find_in_names (pattern : value) (root : string) (names : list string)
    (matches : list value) : res (list value) :=
  match names with
  | [] => Ret matches
  | name :: rest =>
      needle ← lower pattern;
      if contains needle (str_lower h name) then
        let full_path := path_join h root name in
        let matches :=
          matches ++ [VDict [("path", VStr full_path);
                             ("is_dir", VBool (path_isdir h full_path))]] in
        if (100 <=? length matches)%nat then Ret matches
        else find_in_names pattern root rest matches
      else find_in_names pattern root rest matches
  end.

(** The outer loop: [for root, dirs, files in os.walk(path)]. *)
Fixpoint find_in_walk (pattern : value)
    (steps : list (string * list string * list string)) (stop : option exn)
    (matches : list value) : res (list value) :=
  match steps with
  | [] => match stop with
          | None => Ret matches
          | Some e => Raise e
          end
  | (root, dirs, files) :: rest =>
      matches ← find_in_names pattern root (files ++ dirs) matches;
      if (100 <=? length matches)%nat then Ret matches
      else find_in_walk pattern rest stop matches
  end.

Definition find_response (matches : list value) : value :=
  VDict [("status", VStr "success"); ("result", VList matches);
         ("count", VInt (Z.of_nat (length matches)))].

Definition find_file (args : value) : res value :=
  guarded (
    pattern ← get args "pattern" VNone;
    path ← get args "path" (VStr ".");
    if negb (truthy pattern) then Ret (failure "No pattern specified") else
    matches ← find_in_walk pattern (items (os_walk h path))
                (stops_with (os_walk h path)) [];
    Ret (find_response matches)).

(** [self.commands], as [__init__] builds it. *)
Definition registry : gmap string (value -> res value) :=
  list_to_map
    [("sysinfo", get_system_info); ("listdir", list_directory);
     ("diskspace", get_disk_space); ("processlist", get_process_list);
     ("meminfo", get_memory_info); ("netinfo", get_network_info);
     ("fileinfo", get_file_info); ("uptime", get_uptime);
     ("hostname", get_hostname); ("echo", echo_message);
     ("ping", ping_host); ("findfile", find_file)].

End WithHost.

(** *** Reading an envelope *)

(** [response.get(key)] *)
Definition field (response : value) (key : string) : option value :=
  match response with
  | VDict d => dict_get key d
  | _ => None
  end.

(** A field is populated when the response object carries its key. *)
Definition populated (response : value) (key : string) : bool :=
  match field response key with
  | Some _ => true
  | None => false
  end.

(** Exactly one of [result] and [error], the one the status names. *)
Definition one_sided (response : value) : bool :=
  match field response "status" with
  | Some (VStr s) =>
      if String.eqb s "success"
      then populated response "result" && negb (populated response "error")
      else if String.eqb s "error"
      then populated response "error" && negb (populated response "result")
      else false
  | _ => false
  end.

End Handlers.

Export Handlers.

(** ** The connection loop *)

Module Session.

(** What one connection does that can be seen from outside, in order. *)
Inductive event : Type :=
| EvHandler (command : value) (args : value)  (* a registry handler was called *)
| EvSend (payload : list byte)                (* [sendall] delivered a reply *)
| EvError (e : exn).                          (* [handle_client_error] was logged *)

(** [OPEN]: the loop is at [recv] again; [CLOSED]: the [finally] block
    has closed the socket. *)
Inductive conn_state : Type := OPEN | CLOSED.

(** What the surroundings give one pass of the loop: the shared flag
    [self.running], the outcome of [recv(4096)], and what [sendall] does
    with a payload. *)
Record io : Type :=
  { io_running : bool;
    io_recv : res (list byte);
    io_send : list byte -> res unit }.

Record server : Type :=
  { auth_token : option string;
    commands : gmap string (value -> res value) }.

(** [__init__]: [auth_token or os.environ.get('RCE_TOKEN')], and the fixed
    registry. *)
Definition new_server (h : Host) (token : option string)
    (rce_token : option string) : server :=
  {| auth_token := match token with
                   | Some t => if String.eqb t "" then rce_token else Some t
                   | None => rce_token
                   end;
     commands := registry h |}.

(** Actions: the events so far, and a result or the exception that cut the
    action short. *)
Definition act (A : Type) : Type := (list event * res A)%type.

Definition act_ret {A : Type} (a : A) : act A := ([], Ret a).

Definition act_bind {A B : Type} (m : act A) (f : A -> act B) : act B :=
  match m with
  | (evs, Ret a) => let '(evs', r) := f a in (evs ++ evs', r)
  | (evs, Raise e) => (evs, Raise e)
  end.

Definition lift {A : Type} (m : res A) : act A := ([], m).

Definition emit (ev : event) : act unit := ([ev], Ret tt).

(** [try: m  except cls: handler] *)
Definition except_class {A : Type} (m : act A) (cls : exn_class)
    (handler : act A) : act A :=
  match m with
  | (evs, Raise e) =>
      if decide (exn_class_of e = cls)
      then let '(evs', r) := handler in (evs ++ evs', r)
      else m
  | _ => m
  end.

Notation "'let!' x := m 'in' k" := (act_bind m (fun x => k))
  (at level 10, x name, m at level 100, k at level 200).

Section WithHost.
Variable h : Host.

(** [json.dumps(response).encode('utf-8')] *)
Definition encode (response : value) : res (list byte) :=
  text ← json_dumps h response;
  str_encode h text.

(** [client_socket.sendall(json.dumps(response).encode('utf-8'))] *)
Definition reply (c : io) (response : value) : act unit :=
  let! payload := lift (encode response) in
  let! _ := lift (io_send c payload) in
  emit (EvSend payload).

(** [token != self.auth_token], behind [self.auth_token is not None]. *)
Definition unauthorized (srv : server) (token : value) : bool :=
  match auth_token srv with
  | Some t => negb (eq_str token t)
  | None => false
  end.

(** [command in self.commands] and [self.commands[command]]: lists and
    dicts cannot be hashed; no other non-str is a key. *)
Definition lookup_command (srv : server) (command : value)
  : res (option (value -> res value)) :=
  match command with
  | VStr name => Ret (commands srv !! name)
  | VList _ | VDict _ =>
      Raise (Exn TypeError ("unhashable type: '" +:+ type_name command +:+ "'"))
  | _ => Ret None
  end.

(** [f"{command}"]: a str is itself. *)
Definition format (command : value) : string :=
  match command with
  | VStr s => s
  | _ => str_of h command
  end.

(** The inner [try] after [json.loads]: from the three [get]s to the
    reply; the result is [true] when the loop is left by [break]. *)
Definition dispatch (srv : server) (c : io) (command_data : value) : act bool :=
  let! command := lift (get command_data "command" (VStr "")) in
  let! args := lift (get command_data "args" (VDict [])) in
  let! token := lift (get command_data "token" VNone) in
  if eq_str command "exit" then act_ret true
  else if unauthorized srv token then
    let! _ := reply c (failure "Unauthorized") in
    act_ret false
  else
    let! handler := lift (lookup_command srv command) in
    let! response :=
      match handler with
      | Some f => let! _ := emit (EvHandler command args) in lift (f args)
      | None => act_ret (failure ("Unknown command: " +:+ format command))
      end in
    let! _ := reply c response in
    act_ret false.

(** The whole body of the inner [try]. *)
Definition request_body (srv : server) (c : io) (data : list byte) : act bool :=
  let! text := lift (bytes_decode h data) in
  let! command_data := lift (json_loads h text) in
  dispatch srv c command_data.

(** The inner [try] with its [except json.JSONDecodeError]. *)
Definition serve_request (srv : server) (c : io) (data : list byte) : act bool :=
  except_class (request_body srv c data) JSONDecodeError
    (let! _ := reply c (failure "Invalid command format") in act_ret false).

(** [handle_client]: the loop over what the connection receives, the
    outer [except Exception] and the [finally] that closes the socket.  The
    list holds the passes the surroundings have answered so far; when it is
    used up the connection is still [OPEN], blocked in [recv]. *)
Fixpoint handle_client (srv : server) (passes : list io)
  : list event * conn_state :=
  match passes with
  | [] => ([], OPEN)
  | c :: rest =>
      if negb (io_running c) then ([], CLOSED) else
      match io_recv c with
      | Raise e => ([EvError e], CLOSED)
      | Ret [] => ([], CLOSED)
      | Ret data =>
          match serve_request srv c data with
          | (evs, Ret true) => (evs, CLOSED)
          | (evs, Ret false) =>
              let '(evs', st) := handle_client srv rest in (evs ++ evs', st)
          | (evs, Raise e) => (evs ++ [EvError e], CLOSED)
          end
      end
  end.

End WithHost.

End Session.

Export Session.

(** ** A concrete host

    A small machine to run the definitions on: an ASCII-only Python, a
    file tree with one crowded directory, three processes, one network
    interface, and a [ping] that reaches the loopback address only.  Its
    library calls answer as CPython's do on the values that occur in the
    examples of this file. *)

Module Demo.

(** Strict UTF-8, by the table of well-formed byte sequences. *)
Definition between (lo hi : N) (b : byte) : bool :=
  (lo <=? Byte.to_N b)%N && (Byte.to_N b <=? hi)%N.

Definition cont : N * N := (128, 191)%N.

Fixpoint utf8_ok (pending : list (N * N)) (bs : list byte) : bool :=
  match bs with
  | [] => match pending with [] => true | _ => false end
  | b :: rest =>
      match pending with
      | (lo, hi) :: more => between lo hi b && utf8_ok more rest
      | [] =>
          if between 0 127 b then utf8_ok [] rest
          else if between 194 223 b then utf8_ok [cont] rest
          else if between 224 224 b then utf8_ok [(160, 191)%N; cont] rest
          else if between 225 236 b || between 238 239 b
               then utf8_ok [cont; cont] rest
          else if between 237 237 b then utf8_ok [(128, 159)%N; cont] rest
          else if between 240 240 b then utf8_ok [(144, 191)%N; cont; cont] rest
          else if between 241 243 b then utf8_ok [cont; cont; cont] rest
          else if between 244 244 b then utf8_ok [(128, 143)%N; cont; cont] rest
          else false
      end
  end.

Definition decode (data : list byte) : res string :=
  if utf8_ok [] data then Ret (string_of_list_byte data)
  else Raise (Exn UnicodeDecodeError "'utf-8' codec can't decode bytes").

(** [json.dumps] on values built from None, bools, ints, lists, dicts and
    strs of printable ASCII. *)
Definition dq : string := String (ascii_of_nat 34) EmptyString.
Definition bs : string := String (ascii_of_nat 92) EmptyString.

Fixpoint escape (s : string) : option string :=
  match s with
  | EmptyString => Some EmptyString
  | String c rest =>
      let n := nat_of_ascii c in
      tail ← escape rest;
      if (n =? 34)%nat then Some (bs +:+ dq +:+ tail)
      else if (n =? 92)%nat then Some (bs +:+ bs +:+ tail)
      else if (32 <=? n)%nat && (n <=? 126)%nat then Some (String c tail)
      else None
  end.

Definition quoted (s : string) : option string :=
  body ← escape s; Some (dq +:+ body +:+ dq).

Fixpoint dumps_text (v : value) : option string :=
  match v with
  | VNone => Some "null"
  | VBool true => Some "true"
  | VBool false => Some "false"
  | VInt z => Some (pretty z)
  | VFloat _ => None
  | VStr s => quoted s
  | VList l =>
      body ← (fix elements (l : list value) : option string :=
                match l with
                | [] => Some ""
                | [x] => dumps_text x
                | x :: rest =>
                    a ← dumps_text x; b ← elements rest; Some (a +:+ ", " +:+ b)
                end) l;
      Some ("[" +:+ body +:+ "]")
  | VDict d =>
      body ← (fix members (d : list (string * value)) : option string :=
                match d with
                | [] => Some ""
                | [(k, x)] =>
                    a ← quoted k; b ← dumps_text x; Some (a +:+ ": " +:+ b)
                | (k, x) :: rest =>
                    a ← quoted k; b ← dumps_text x; c ← members rest;
                    Some (a +:+ ": " +:+ b +:+ ", " +:+ c)
                end) d;
      Some ("{" +:+ body +:+ "}")
  end.

Definition dumps (v : value) : res string :=
  match dumps_text v with
  | Some s => Ret s
  | None => Raise (Exn OtherException "value outside the demo codec")
  end.

(** The request objects the examples send. *)
Definition request (command : string) (extra : list (string * value)) : value :=
  VDict (("command", VStr command) :: extra).

Definition requests : list value :=
  [ request "exit" [];
    request "exit" [("token", VStr "wrong")];
    request "hostname" [("token", VStr "wrong")];
    request "hostname" [];
    request "echo" [("args", VDict [("message", VStr "hi")])];
    request "echo" [("args", VDict [("message", VStr "hi")]); ("token", VStr "any")];
    request "echo" [("args", VStr "hi")];
    request "reboot" [] ].

(** [json.loads] on the texts of those requests; every other text the
    examples send is no JSON. *)
Fixpoint loads_from (table : list value) (text : string) : res value :=
  match table with
  | [] => Raise (Exn JSONDecodeError "Expecting value: line 1 column 1 (char 0)")
  | v :: rest =>
      if bool_decide (dumps_text v = Some text) then Ret v
      else loads_from rest text
  end.

(** What the client's [send_command] puts on the wire for a request. *)
Definition wire (v : value) : list byte :=
  list_byte_of_string (default "" (dumps_text v)).

(** [str.lower] on ASCII. *)
Definition lower_ascii (c : ascii) : ascii :=
  let n := nat_of_ascii c in
  if (65 <=? n)%nat && (n <=? 90)%nat then ascii_of_nat (n + 32) else c.

Fixpoint lower_str (s : string) : string :=
  match s with
  | EmptyString => EmptyString
  | String c rest => String (lower_ascii c) (lower_str rest)
  end.

(** [str] of the objects the examples print. *)
Definition to_str (v : value) : string :=
  match v with
  | VNone => "None"
  | VBool true => "True"
  | VBool false => "False"
  | VInt z => pretty z
  | VStr s => s
  | _ => default "" (dumps_text v)
  end.

(** One directory, [/var/log], with 150 files [app0.log] ... [app149.log]
    and a sub-directory [archive] holding [old.log]. *)
Definition log_files : list string :=
  map (fun i : nat => "app" +:+ pretty i +:+ ".log") (seq 0 150).

Definition walk (path : value) : iteration (string * list string * list string) :=
  match path with
  | VStr "/var/log" =>
      Iteration [("/var/log", ["archive"], log_files);
                 ("/var/log/archive", [], ["old.log"])] None
  | VStr _ => Iteration [] None
  | _ => Iteration []
           (Some (Exn TypeError
                    ("expected str, bytes or os.PathLike object, not "
                       +:+ type_name path)))
  end.

Definition process (pid : Z) (name : string) (mem : Z) : res value :=
  Ret (VDict [("pid", VInt pid); ("name", VStr name);
              ("memory_percent", VInt mem)]).

Definition processes : iteration (res value) :=
  Iteration [process 1 "init" 1;
             Raise (Exn AccessDenied "psutil.AccessDenied (pid=2)");
             process 30 "python" 7;
             process 41 "sshd" 3] None.

(** [sorted(l, key=..., reverse=...)] when every key is an int: larger
    keys first, equal keys in the order they came; turned around for
    [reverse=False]. *)
Definition key_int (key : value -> res value) (v : value) : res Z :=
  k ← key v;
  match k with
  | VInt z => Ret z
  | _ => Raise (Exn TypeError "'<' not supported between instances")
  end.

Fixpoint insert_desc (k : Z) (v : value) (l : list (Z * value))
  : list (Z * value) :=
  match l with
  | [] => [(k, v)]
  | (k', v') :: rest =>
      if k' <=? k then (k, v) :: (k', v') :: rest
      else (k', v') :: insert_desc k v rest
  end.

Fixpoint sort_desc (key : value -> res value) (l : list value)
  : res (list (Z * value)) :=
  match l with
  | [] => Ret []
  | v :: rest =>
      sorted ← sort_desc key rest;
      k ← key_int key v;
      Ret (insert_desc k v sorted)
  end.

Definition sorted (key : value -> res value) (reverse : bool) (l : list value)
  : res (list value) :=
  sorted ← sort_desc key (if reverse then l else rev l);
  Ret (map snd (if reverse then sorted else rev sorted)).

Definition run (cmd : list value) : res completed_process :=
  match cmd with
  | [VStr "ping"; VStr _; VStr _; VStr "127.0.0.1"] =>
      Ret {| returncode := 0;
             stdout := VStr "4 packets transmitted, 4 received, 0% packet loss";
             stderr := VStr "" |}
  | [VStr "ping"; VStr _; VStr _; VStr _] =>
      Ret {| returncode := 1;
             stdout := VStr "4 packets transmitted, 0 received, 100% packet loss";
             stderr := VStr "" |}
  | _ => Raise (Exn TypeError "expected str, bytes or os.PathLike object")
  end.

Definition unsupported {A : Type} : res A :=
  Raise (Exn OtherException "not available on the demo host").

Definition host : Host :=
  {| bytes_decode := decode;
     json_loads := loads_from requests;
     json_dumps := dumps;
     str_encode := fun s => Ret (list_byte_of_string s);
     str_of := to_str;
     str_lower := lower_str;
     truediv := fun _ _ => unsupported;
     mul := fun _ _ => unsupported;
     sub := fun _ _ => unsupported;
     sorted_by := sorted;
     platform_system := Ret "Linux";
     platform_node := Ret (VStr "demo");
     platform_release := Ret (VStr "6.1");
     platform_version := Ret (VStr "#1 SMP");
     platform_machine := Ret (VStr "x86_64");
     platform_processor := Ret (VStr "");
     os_cpu_count := Ret (VInt 4);
     os_getcwd := Ret (VStr "/srv");
     os_listdir := fun _ => Ret [];
     os_stat := fun _ => Raise (Exn OSError "[Errno 2] No such file or directory");
     os_walk := walk;
     path_join := fun a b => a +:+ "/" +:+ b;
     path_isdir := fun p => bool_decide (p = "/var/log/archive");
     isdir_other := fun _ => Ret false;
     os_path_isfile := fun _ => Ret false;
     os_path_islink := fun _ => Ret false;
     os_path_exists := fun _ => Ret false;
     os_path_basename := fun _ => unsupported;
     os_path_abspath := fun _ => unsupported;
     shutil_disk_usage := fun _ => unsupported;
     psutil_process_iter := processes;
     psutil_virtual_memory := unsupported;
     psutil_swap_memory := unsupported;
     psutil_net_if_addrs := Ret [];
     psutil_net_if_stats := Ret ∅;
     psutil_net_io_counters := Ret ∅;
     psutil_boot_time := Ret (VInt 1700000000);
     time_time := Ret (VInt 1700003600);
     socket_gethostname := Ret (VStr "demo");
     socket_getfqdn := Ret (VStr "demo.local");
     subprocess_run := run |}.

(** A pass of the loop that receives [data] on a live server and whose
    [sendall] succeeds. *)
Definition receives (data : list byte) : io :=
  {| io_running := true; io_recv := Ret data; io_send := fun _ => Ret tt |}.

(** The server started with [--token secret], and the one started with no
    token and no [RCE_TOKEN]. *)
Definition secured : server := new_server host (Some "secret") None.
Definition open_mode : server := new_server host None None.

(** The passes of the examples. *)
Definition hostname_wrong : io :=
  receives (wire (request "hostname" [("token", VStr "wrong")])).
Definition hostname_bare : io := receives (wire (request "hostname" [])).
Definition exit_wrong : io :=
  receives (wire (request "exit" [("token", VStr "wrong")])).
Definition echo_hi : io :=
  receives (wire (request "echo" [("args", VDict [("message", VStr "hi")])])).
Definition echo_hi_token : io :=
  receives (wire (request "echo" [("args", VDict [("message", VStr "hi")]);
                                  ("token", VStr "any")])).
Definition reboot : io := receives (wire (request "reboot" [])).

(** The three processes the host lets us see, largest share of memory
    first. *)
Definition by_memory : list value :=
  [VDict [("pid", VInt 30); ("name", VStr "python"); ("memory_percent", VInt 7)];
   VDict [("pid", VInt 41); ("name", VStr "sshd"); ("memory_percent", VInt 3)];
   VDict [("pid", VInt 1); ("name", VStr "init"); ("memory_percent", VInt 1)]].

End Demo.

(** ** Reading a trace *)

Module Trace.

Definition is_send (ev : event) : bool :=
  match ev with
  | EvSend _ => true
  | _ => false
  end.

Definition is_error (ev : event) : bool :=
  match ev with
  | EvError _ => true
  | _ => false
  end.

(** How many replies a trace holds. *)
Definition sends (evs : list event) : nat := length (List.filter is_send evs).

(** What one pass of the loop can leave in the trace before it ends: at
    most one handler call, for a key of the registry, then at most one
    reply. *)
Inductive pass_events (srv : server) : list event -> Prop :=
| pass_silent : pass_events srv []
| pass_reply payload : pass_events srv [EvSend payload]
| pass_call name f args :
    commands srv !! name = Some f ->
    pass_events srv [EvHandler (VStr name) args]
| pass_call_reply name f args payload :
    commands srv !! name = Some f ->
    pass_events srv [EvHandler (VStr name) args; EvSend payload].

End Trace.

Export Trace.

(** ** What the loops of the handlers compute *)

Module Loops.

Section WithHost.
Variable h : Host.

(** The entry [list_directory] builds for [file] in directory [p]. *)
Definition listing_entry (p : string) (stats : string -> stat_result)
    (file : string) : value :=
  VDict [("name", VStr file); ("size", st_size (stats file));
         ("modified", st_mtime (stats file));
         ("is_dir", VBool (path_isdir h (path_join h p file)))].

(** The processes whose [info] could be read. *)
Definition visible (procs : list (res value)) : list value :=
  omap (fun info => match info with
                    | Ret pinfo => Some pinfo
                    | Raise _ => None
                    end) procs.

(** The entry [find_file] builds for [name] under [root]. *)
Definition match_entry (root name : string) : value :=
  VDict [("path", VStr (path_join h root name));
         ("is_dir", VBool (path_isdir h (path_join h root name)))].

(** The names of one directory that hold the pattern, files first. *)
Definition matching (pattern : string)
    (step : string * list string * list string) : list value :=
  let '(root, dirs, files) := step in
  map (match_entry root)
    (List.filter (fun name => contains (str_lower h pattern) (str_lower h name))
       (files ++ dirs)).

(** Every match of a walk, in the order of the walk. *)
Definition all_matches (pattern : string)
    (steps : list (string * list string * list string)) : list value :=
  flat_map (matching pattern) steps.

End WithHost.

End Loops.

Export Loops.

(** ** The client

    [client.py], class [RemoteCommandClient]: how a line typed at the shell
    becomes a command and its arguments ([start_shell]), and the request
    object [send_command] puts on the wire.  The str methods the shell
    calls and does not define are the fields of [Shell]. *)

Module Client.

Record Shell : Type :=
  { sh_strip : string -> string;        (* s.strip() *)
    sh_lower : string -> string;        (* s.lower() *)
    sh_isdigit : string -> bool;        (* s.isdigit() *)
    sh_int : string -> res Z }.         (* int(s) *)

Definition is_space (c : ascii) : bool := (nat_of_ascii c =? 32)%nat.

(** [s.split(' ', 1)]: the text before the first space, and the text
    after it when there is a space. *)
Fixpoint split_once (s : string) : string * option string :=
  match s with
  | EmptyString => (EmptyString, None)
  | String c rest =>
      if is_space c then (EmptyString, Some rest)
      else let '(first, more) := split_once rest in (String c first, more)
  end.

(** No space in [s]. *)
Fixpoint no_space (s : string) : bool :=
  match s with
  | EmptyString => true
  | String c rest => negb (is_space c) && no_space rest
  end.

(** [s.split(' ')]: never an empty list. *)
Fixpoint split_all (s : string) : list string :=
  match s with
  | EmptyString => [EmptyString]
  | String c rest =>
      if is_space c then EmptyString :: split_all rest
      else match split_all rest with
           | first :: others => String c first :: others
           | [] => [String c EmptyString]
           end
  end.

(** [__init__]: [token or os.environ.get('RCE_TOKEN')] *)
Definition client_token (token rce_token : option string) : option string :=
  match token with
  | Some t => if String.eqb t "" then rce_token else Some t
  | None => rce_token
  end.

(** [send_command], lines 75-78: the request object.  [args] is [None] or
    a dict; an empty dict is left out like [None], and so is an empty
    token. *)
Definition command_data (token : option string) (command : string)
    (args : option (list (string * value))) : list (string * value) :=
  let with_args :=
    match args with
    | Some (binding :: more) =>
        dict_set "args" (VDict (binding :: more)) [("command", VStr command)]
    | _ => [("command", VStr command)]
    end in
  match token with
  | Some t => if String.eqb t "" then with_args
              else dict_set "token" (VStr t) with_args
  | None => with_args
  end.

(** [start_shell], lines 128-148: the arguments of each command. *)
Definition shape_args (t : Shell) (command args_str : string)
  : res (list (string * value)) :=
  if String.eqb command "listdir" || String.eqb command "diskspace"
     || String.eqb command "fileinfo"
  then Ret (if String.eqb args_str "" then [] else [("path", VStr args_str)])
  else if String.eqb command "processlist"
  then if negb (String.eqb args_str "") && sh_isdigit t args_str
       then limit ← sh_int t args_str; Ret [("limit", VInt limit)]
       else Ret []
  else if String.eqb command "echo"
  then Ret [("message", VStr args_str)]
  else if String.eqb command "ping"
  then match split_all args_str with
       | [] => Ret []
       | host :: more =>
           match more with
           | second :: _ =>
               if sh_isdigit t second
               then count ← sh_int t second;
                    Ret [("host", VStr host); ("count", VInt count)]
               else Ret [("host", VStr host)]
           | [] => Ret [("host", VStr host)]
           end
       end
  else if String.eqb command "findfile"
  then match split_once args_str with
       | (pattern, Some path) =>
           Ret [("pattern", VStr pattern); ("path", VStr path)]
       | (pattern, None) => Ret [("pattern", VStr pattern)]
       end
  else Ret [].

(** What one line typed at the prompt leads to. *)
Inductive shell_step : Type :=
| Ignore                                   (* empty line: [continue] *)
| Disconnect                               (* [self.disconnect()], [break] *)
| Help                                     (* [self.show_help()] *)
| Send (command : string) (args : list (string * value)).
                                           (* [self.send_command(command, args)] *)

(** [start_shell], lines 110-151, for one line of input. *)
Definition parse_line (t : Shell) (line : string) : res shell_step :=
  let command_line := sh_strip t line in
  if String.eqb command_line "" then Ret Ignore
  else
    let '(first, more) := split_once command_line in
    let command := sh_lower t first in
    let args_str := default "" more in
    if String.eqb command "exit" then Ret Disconnect
    else if String.eqb command "help" then Ret Help
    else args ← shape_args t command args_str; Ret (Send command args).

(** The [args] the server reads from a request object (line 98). *)
Definition args_of (request : list (string * value)) : value :=
  default (VDict []) (dict_get "args" request).

End Client.

Export Client.

(** ** The accept loop *)

Module Lifecycle.





End Lifecycle.

Export Lifecycle.

(** ** More of the demo machine *)

Module Lab.

(** A host that differs from [h] in what it decodes, lists, stats and
    enumerates. *)
Definition host_with (h : Host) (loads : string -> res value)
    (listdir : value -> res (list string)) (stat : value -> res stat_result)
    (procs : iteration (res value)) : Host :=
  {| bytes_decode := bytes_decode h;
     json_loads := loads;
     json_dumps := json_dumps h;
     str_encode := str_encode h;
     str_of := str_of h;
     str_lower := str_lower h;
     truediv := truediv h;
     mul := mul h;
     sub := sub h;
     sorted_by := sorted_by h;
     platform_system := platform_system h;
     platform_node := platform_node h;
     platform_release := platform_release h;
     platform_version := platform_version h;
     platform_machine := platform_machine h;
     platform_processor := platform_processor h;
     os_cpu_count := os_cpu_count h;
     os_getcwd := os_getcwd h;
     os_listdir := listdir;
     os_stat := stat;
     os_walk := os_walk h;
     path_join := path_join h;
     path_isdir := path_isdir h;
     isdir_other := isdir_other h;
     os_path_isfile := os_path_isfile h;
     os_path_islink := os_path_islink h;
     os_path_exists := os_path_exists h;
     os_path_basename := os_path_basename h;
     os_path_abspath := os_path_abspath h;
     shutil_disk_usage := shutil_disk_usage h;
     psutil_process_iter := procs;
     psutil_virtual_memory := psutil_virtual_memory h;
     psutil_swap_memory := psutil_swap_memory h;
     psutil_net_if_addrs := psutil_net_if_addrs h;
     psutil_net_if_stats := psutil_net_if_stats h;
     psutil_net_io_counters := psutil_net_io_counters h;
     psutil_boot_time := psutil_boot_time h;
     time_time := time_time h;
     socket_gethostname := socket_gethostname h;
     socket_getfqdn := socket_getfqdn h;
     subprocess_run := subprocess_run h |}.

(** More JSON the examples send: a list, a request with the right token,
    requests whose command is a list or a number. *)
Definition requests : list value :=
  [ VList [VInt 1];
    Demo.request "hostname" [("token", VStr "secret")];
    VDict [("command", VList [VStr "ls"])];
    VDict [("command", VInt 5)] ] ++ Demo.requests.

(** [/var/log] holds a file and a directory; [/tmp] holds a link that
    leads nowhere between two files. *)
Definition listdir (path : value) : res (list string) :=
  match path with
  | VStr "/var/log" => Ret ["app.log"; "archive"]
  | VStr "/tmp" => Ret ["ok.txt"; "dangling"; "later.txt"]
  | _ => Raise (Exn OSError "[Errno 2] No such file or directory")
  end.

Definition stats_of (file : string) : stat_result :=
  {| st_size := VInt (Z.of_nat (String.length file));
     st_ctime := VInt 1700000000;
     st_mtime := VInt 1700000500;
     st_atime := VInt 1700000900 |}.

Definition stat (path : value) : res stat_result :=
  match path with
  | VStr "/var/log/app.log" => Ret (stats_of "app.log")
  | VStr "/var/log/archive" => Ret (stats_of "archive")
  | VStr "/tmp/ok.txt" => Ret (stats_of "ok.txt")
  | VStr "/tmp/later.txt" => Ret (stats_of "later.txt")
  | _ => Raise (Exn OSError "[Errno 2] No such file or directory")
  end.

Definition host : Host :=
  host_with Demo.host (Demo.loads_from requests) listdir stat Demo.processes.

(** The same host when one process fails with something psutil does not
    name. *)
Definition failing_processes : iteration (res value) :=
  Iteration [Demo.process 1 "init" 1;
             Raise (Exn AccessDenied "psutil.AccessDenied (pid=2)");
             Raise (Exn OSError "[Errno 5] Input/output error");
             Demo.process 41 "sshd" 3] None.

Definition shaky_host : Host :=
  host_with Demo.host (Demo.loads_from requests) listdir stat failing_processes.

(** Twelve processes, for the default limit; the larger the pid, the
    more memory. *)
Definition worker (i : nat) : value :=
  VDict [("pid", VInt (Z.of_nat i)); ("name", VStr "worker");
         ("memory_percent", VInt (Z.of_nat i))].

Definition many_processes : iteration (res value) :=
  Iteration (map (fun i : nat => Ret (worker i)) (seq 1 12)) None.

Definition busy_host : Host :=
  host_with Demo.host (Demo.loads_from requests) listdir stat many_processes.

Definition secured : server := new_server host (Some "secret") None.
Definition open_mode : server := new_server host None None.

(** Two interfaces: the loopback has a status and no counters, the wired
    one counters and no status. *)
Definition loopback : snicaddr :=
  {| family_str := "AddressFamily.AF_INET"; address := VStr "127.0.0.1";
     netmask := VStr "255.0.0.0"; broadcast := VNone |}.

Definition wired : snicaddr :=
  {| family_str := "AddressFamily.AF_INET"; address := VStr "192.168.1.7";
     netmask := VStr "255.255.255.0"; broadcast := VStr "192.168.1.255" |}.

Definition interfaces : list (string * list snicaddr) :=
  [("lo", [loopback]); ("eth0", [wired])].

Definition nic_stats : gmap string snicstats := {[ "lo" := {| isup := VBool true |} ]}.

Definition nic_counters : gmap string snetio :=
  {[ "eth0" := {| bytes_sent := VInt 1024; bytes_recv := VInt 4096 |} ]}.

(** An ASCII shell. *)
Definition is_blank (c : ascii) : bool :=
  let n := nat_of_ascii c in
  (n =? 32)%nat || ((9 <=? n)%nat && (n <=? 13)%nat).

Fixpoint lstrip (s : string) : string :=
  match s with
  | String c rest => if is_blank c then lstrip rest else s
  | EmptyString => EmptyString
  end.

Fixpoint rstrip (s : string) : string :=
  match s with
  | EmptyString => EmptyString
  | String c rest =>
      match rstrip rest with
      | EmptyString => if is_blank c then EmptyString else String c EmptyString
      | kept => String c kept
      end
  end.

Definition digit (c : ascii) : option Z :=
  let n := nat_of_ascii c in
  if (48 <=? n)%nat && (n <=? 57)%nat then Some (Z.of_nat (n - 48)) else None.

Fixpoint all_digits (s : string) : bool :=
  match s with
  | EmptyString => true
  | String c rest =>
      match digit c with
      | Some _ => all_digits rest
      | None => false
      end
  end.

Definition isdigit (s : string) : bool :=
  negb (String.eqb s "") && all_digits s.

Fixpoint digits_value (acc : Z) (s : string) : option Z :=
  match s with
  | EmptyString => Some acc
  | String c rest => d ← digit c; digits_value (10 * acc + d) rest
  end.

Definition to_int (s : string) : res Z :=
  match (if String.eqb s "" then None else digits_value 0 s) with
  | Some z => Ret z
  | None => Raise (Exn OtherException "invalid literal for int() with base 10")
  end.

Definition shell : Shell :=
  {| sh_strip := fun s => rstrip (lstrip s);
     sh_lower := Demo.lower_str;
     sh_isdigit := isdigit;
     sh_int := to_int |}.



End Lab.

(** * Properties *)

(** ** Dicts *)

Section DictFacts.

Lemma dict_get_set_eq k v d : dict_get k (dict_set k v d) = Some v.
Proof.
  induction d as [|[k' v'] d IH]; cbn.
  - by rewrite String.eqb_refl.
  - destruct (String.eqb k k') eqn:E; cbn.
    + by rewrite String.eqb_refl.
    + by rewrite E.
Qed.

Lemma dict_get_set_ne k k' v d :
  k <> k' -> dict_get k (dict_set k' v d) = dict_get k d.
Proof.
  intros Hne. induction d as [|[k0 v0] d IH]; cbn.
  - destruct (String.eqb_spec k k'); [done | reflexivity].
  - destruct (String.eqb_spec k' k0) as [->|Hk0]; cbn.
    + destruct (String.eqb_spec k k0); [done | reflexivity].
    + destruct (String.eqb_spec k k0); [reflexivity | exact IH].
Qed.

Lemma dict_get_del_eq k d : dict_get k (dict_del k d) = None.
Proof.
  induction d as [|[k' v'] d IH]; cbn; [reflexivity |].
  destruct (String.eqb k k') eqn:E; cbn; [exact IH | by rewrite E].
Qed.

Lemma dict_get_del_ne k k' d :
  k <> k' -> dict_get k (dict_del k' d) = dict_get k d.
Proof.
  intros Hne. induction d as [|[k0 v0] d IH]; cbn; [reflexivity |].
  destruct (String.eqb_spec k' k0) as [->|Hk0]; cbn.
  - destruct (String.eqb_spec k k0); [done | exact IH].
  - destruct (String.eqb_spec k k0); [reflexivity | exact IH].
Qed.

(** [v == s] fails exactly when [v] is not the str [s]. *)
Lemma eq_str_false v s : eq_str v s = false <-> v <> VStr s.
Proof.
  destruct v; cbn; try (split; [discriminate | reflexivity]).
  destruct (String.eqb_spec s0 s) as [->|Hne]; split; try done.
  intros _ [= ->]. done.
Qed.

Lemma eq_str_true v s : eq_str v s = true <-> v = VStr s.
Proof.
  destruct v; cbn; try (split; discriminate).
  destruct (String.eqb_spec s0 s) as [->|Hne]; split; try done.
  intros [= ->]. done.
Qed.

End DictFacts.

(** ** The connection loop *)

Section SessionFacts.
Variable h : Host.

(** One pass of the loop on a non-empty message, in terms of
    [serve_request]. *)
Lemma handle_client_pass srv c rest data :
  io_running c = true ->
  io_recv c = Ret data ->
  data <> [] ->
  handle_client h srv (c :: rest) =
    match serve_request h srv c data with
    | (evs, Ret true) => (evs, CLOSED)
    | (evs, Ret false) =>
        let '(evs', st) := handle_client h srv rest in (evs ++ evs', st)
    | (evs, Raise e) => (evs ++ [EvError e], CLOSED)
    end.
Proof.
  intros Hrun Hrecv Hdata. cbn [handle_client].
  rewrite Hrun, Hrecv. cbn [negb].
  destruct data as [|b data]; [congruence | reflexivity].
Qed.

Lemma act_bind_ret {A B : Type} (a : A) (f : A -> act B) :
  act_bind (lift (Ret a)) f = f a.
Proof. unfold act_bind, lift. by destruct (f a). Qed.

Lemma act_bind_raise {A B : Type} (e : exn) (f : A -> act B) :
  act_bind (lift (Raise e)) f = ([], Raise e).
Proof. reflexivity. Qed.

(** The inner [try] once the bytes have decoded to a JSON value. *)
Lemma request_body_decoded srv c data text command_data :
  bytes_decode h data = Ret text ->
  json_loads h text = Ret command_data ->
  request_body h srv c data = dispatch h srv c command_data.
Proof.
  intros Hdec Hload. unfold request_body.
  by rewrite Hdec, act_bind_ret, Hload, act_bind_ret.
Qed.

Lemma reply_delivered c response payload :
  encode h response = Ret payload ->
  io_send c payload = Ret tt ->
  reply h c response = ([EvSend payload], Ret tt).
Proof. intros He Hs. unfold reply. by rewrite He, act_bind_ret, Hs, act_bind_ret. Qed.

(** A request object whose command is not "exit" and whose token fails
    the check is answered "Unauthorized", whatever the registry holds. *)
Lemma dispatch_unauthorized srv c d tok payload :
  auth_token srv = Some tok ->
  dict_get "command" d <> Some (VStr "exit") ->
  dict_get "token" d <> Some (VStr tok) ->
  encode h (failure "Unauthorized") = Ret payload ->
  io_send c payload = Ret tt ->
  dispatch h srv c (VDict d) = ([EvSend payload], Ret false).
Proof.
  intros Htok Hcmd Hbad Henc Hsend. unfold dispatch. cbn [get].
  rewrite !act_bind_ret.
  assert (eq_str (default (VStr "") (dict_get "command" d)) "exit" = false) as ->.
  { apply eq_str_false. destruct (dict_get "command" d); cbn; congruence. }
  assert (unauthorized srv (default VNone (dict_get "token" d)) = true) as ->.
  { unfold unauthorized. rewrite Htok. apply negb_true_iff, eq_str_false.
    destruct (dict_get "token" d); cbn; congruence. }
  by rewrite (reply_delivered _ _ _ Henc Hsend).
Qed.

(** An authorized request object whose command is a str outside the
    registry, and not "exit", is answered "Unknown command: <name>". *)
Lemma dispatch_unknown srv c d name payload :
  default (VStr "") (dict_get "command" d) = VStr name ->
  name <> "exit" ->
  commands srv !! name = None ->
  unauthorized srv (default VNone (dict_get "token" d)) = false ->
  encode h (failure ("Unknown command: " +:+ name)) = Ret payload ->
  io_send c payload = Ret tt ->
  dispatch h srv c (VDict d) = ([EvSend payload], Ret false).
Proof.
  intros Hcmd Hne Hmiss Hauth Henc Hsend. unfold dispatch. cbn [get].
  rewrite !act_bind_ret, Hcmd, Hauth.
  assert (eq_str (VStr name) "exit" = false) as ->.
  { apply eq_str_false. congruence. }
  cbn [lookup_command format]. rewrite Hmiss.
  cbn [act_bind lift act_ret]. by rewrite (reply_delivered _ _ _ Henc Hsend).
Qed.

(** With no token configured the token of the request is never looked at. *)
Lemma dispatch_ignores_token srv c d1 d2 :
  auth_token srv = None ->
  dict_get "command" d1 = dict_get "command" d2 ->
  dict_get "args" d1 = dict_get "args" d2 ->
  dispatch h srv c (VDict d1) = dispatch h srv c (VDict d2).
Proof.
  intros Hnone Hcmd Hargs. unfold dispatch. cbn [get].
  rewrite !act_bind_ret, Hcmd, Hargs. unfold unauthorized. by rewrite Hnone.
Qed.

(** A pass that ends in a reply and goes back to [recv]. *)
Lemma handle_client_replied srv c rest data payload :
  io_running c = true ->
  io_recv c = Ret data ->
  data <> [] ->
  serve_request h srv c data = ([EvSend payload], Ret false) ->
  handle_client h srv (c :: rest) =
    let '(evs, st) := handle_client h srv rest in (EvSend payload :: evs, st).
Proof.
  intros Hrun Hrecv Hdata Hserve.
  rewrite (handle_client_pass srv c rest data Hrun Hrecv Hdata), Hserve.
  by destruct (handle_client h srv rest).
Qed.

Lemma serve_request_decoded srv c data text command_data evs (r : bool) :
  bytes_decode h data = Ret text ->
  json_loads h text = Ret command_data ->
  dispatch h srv c command_data = (evs, Ret r) ->
  serve_request h srv c data = (evs, Ret r).
Proof.
  intros Hdec Hload Hdisp. unfold serve_request.
  by rewrite (request_body_decoded _ _ _ _ _ Hdec Hload), Hdisp.
Qed.

(** C1, as the code has it: while a token is configured, a request whose
    command is not "exit" and whose token field is absent or differs from
    the configured token is answered with the "Unauthorized" envelope; the
    pass calls no handler (its only event is the reply, whatever the
    registry holds) and the loop goes on with the next message. *)
Theorem bad_token_refused srv c rest data text d tok payload :
  auth_token srv = Some tok ->
  io_running c = true ->
  io_recv c = Ret data ->
  data <> [] ->
  bytes_decode h data = Ret text ->
  json_loads h text = Ret (VDict d) ->
  dict_get "command" d <> Some (VStr "exit") ->
  dict_get "token" d <> Some (VStr tok) ->
  encode h (failure "Unauthorized") = Ret payload ->
  io_send c payload = Ret tt ->
  serve_request h srv c data = ([EvSend payload], Ret false) /\
  handle_client h srv (c :: rest) =
    let '(evs, st) := handle_client h srv rest in (EvSend payload :: evs, st).
Proof.
  intros Htok Hrun Hrecv Hdata Hdec Hload Hcmd Hbad Henc Hsend.
  assert (serve_request h srv c data = ([EvSend payload], Ret false)) as Hserve.
  { eapply serve_request_decoded; eauto using dispatch_unauthorized. }
  split; [exact Hserve |].
  by apply handle_client_replied with data.
Qed.

(** C5: with no token configured, a request object with a token field of
    any value and the same object without the field drive the loop to the
    same events and the same state. *)
Theorem token_ignored_in_open_mode srv c1 c2 rest data1 data2 text1 text2 d t :
  auth_token srv = None ->
  io_running c1 = true ->
  io_running c2 = true ->
  io_send c1 = io_send c2 ->
  io_recv c1 = Ret data1 ->
  io_recv c2 = Ret data2 ->
  data1 <> [] ->
  data2 <> [] ->
  bytes_decode h data1 = Ret text1 ->
  json_loads h text1 = Ret (VDict (dict_set "token" t d)) ->
  bytes_decode h data2 = Ret text2 ->
  json_loads h text2 = Ret (VDict (dict_del "token" d)) ->
  handle_client h srv (c1 :: rest) = handle_client h srv (c2 :: rest).
Proof.
  intros Hnone Hrun1 Hrun2 Hsend Hrecv1 Hrecv2 Hne1 Hne2 Hdec1 Hload1 Hdec2 Hload2.
  rewrite (handle_client_pass srv c1 rest data1 Hrun1 Hrecv1 Hne1).
  rewrite (handle_client_pass srv c2 rest data2 Hrun2 Hrecv2 Hne2).
  assert (reply h c1 = reply h c2) as Hreply.
  { unfold reply. by rewrite Hsend. }
  unfold serve_request.
  rewrite (request_body_decoded _ _ _ _ _ Hdec1 Hload1).
  rewrite (request_body_decoded _ _ _ _ _ Hdec2 Hload2).
  rewrite (dispatch_ignores_token srv c1 _ (dict_del "token" d) Hnone)
    by (by rewrite dict_get_set_ne, dict_get_del_ne).
  unfold dispatch. by rewrite Hreply.
Qed.

(** C6: an authorized request whose command is a name outside the
    registry, and not "exit", is answered "Unknown command: <name>", and the
    loop goes on with the next message. *)
Theorem unknown_command_replied srv c rest data text d name payload :
  io_running c = true ->
  io_recv c = Ret data ->
  data <> [] ->
  bytes_decode h data = Ret text ->
  json_loads h text = Ret (VDict d) ->
  default (VStr "") (dict_get "command" d) = VStr name ->
  name <> "exit" ->
  commands srv !! name = None ->
  unauthorized srv (default VNone (dict_get "token" d)) = false ->
  encode h (failure ("Unknown command: " +:+ name)) = Ret payload ->
  io_send c payload = Ret tt ->
  serve_request h srv c data = ([EvSend payload], Ret false) /\
  handle_client h srv (c :: rest) =
    let '(evs, st) := handle_client h srv rest in (EvSend payload :: evs, st).
Proof.
  intros Hrun Hrecv Hdata Hdec Hload Hcmd Hne Hmiss Hauth Henc Hsend.
  assert (serve_request h srv c data = ([EvSend payload], Ret false)) as Hserve.
  { eapply serve_request_decoded; eauto using dispatch_unknown. }
  split; [exact Hserve |].
  by apply handle_client_replied with data.
Qed.

(** X1: text that [json.loads] rejects is answered "Invalid command format",
    and the loop goes on. *)
Lemma invalid_json_replied srv c rest data text e payload :
  io_running c = true ->
  io_recv c = Ret data ->
  data <> [] ->
  bytes_decode h data = Ret text ->
  json_loads h text = Raise e ->
  exn_class_of e = JSONDecodeError ->
  encode h (failure "Invalid command format") = Ret payload ->
  io_send c payload = Ret tt ->
  handle_client h srv (c :: rest) =
    let '(evs, st) := handle_client h srv rest in (EvSend payload :: evs, st).
Proof.
  intros Hrun Hrecv Hdata Hdec Hload Hcls Henc Hsend.
  apply handle_client_replied with data; try done.
  unfold serve_request, request_body.
  rewrite Hdec, act_bind_ret, Hload, act_bind_raise. cbn [except_class].
  rewrite decide_True by done.
  by rewrite (reply_delivered _ _ _ Henc Hsend).
Qed.

(** C7, where the code leaves the claim: bytes that are not UTF-8 raise
    [UnicodeDecodeError] in [data.decode], which the inner [except] does not
    name; the outer one logs it and the connection is closed with nothing
    sent. *)
Theorem undecodable_bytes_close srv c rest data e :
  io_running c = true ->
  io_recv c = Ret data ->
  data <> [] ->
  bytes_decode h data = Raise e ->
  exn_class_of e = UnicodeDecodeError ->
  handle_client h srv (c :: rest) = ([EvError e], CLOSED).
Proof.
  intros Hrun Hrecv Hdata Hdec Hcls.
  rewrite (handle_client_pass srv c rest data Hrun Hrecv Hdata).
  unfold serve_request, request_body.
  rewrite Hdec, act_bind_raise. cbn [except_class].
  rewrite decide_False; [reflexivity | by rewrite Hcls].
Qed.

(** C8: a request whose command is "exit" closes the connection and
    nothing is sent for it; what follows on the connection is not read. *)
Theorem exit_closes_without_reply srv c rest data text d :
  io_running c = true ->
  io_recv c = Ret data ->
  data <> [] ->
  bytes_decode h data = Ret text ->
  json_loads h text = Ret (VDict d) ->
  dict_get "command" d = Some (VStr "exit") ->
  handle_client h srv (c :: rest) = ([], CLOSED).
Proof.
  intros Hrun Hrecv Hdata Hdec Hload Hcmd.
  rewrite (handle_client_pass srv c rest data Hrun Hrecv Hdata).
  unfold serve_request.
  rewrite (request_body_decoded _ _ _ _ _ Hdec Hload).
  unfold dispatch. cbn [get]. rewrite !act_bind_ret, Hcmd. reflexivity.
Qed.

(** X5: a handler that raises takes the connection down: the exception is
    not a [JSONDecodeError], so only the outer [except] sees it. *)
Lemma raising_handler_closes srv c rest data text d name f e :
  io_running c = true ->
  io_recv c = Ret data ->
  data <> [] ->
  bytes_decode h data = Ret text ->
  json_loads h text = Ret (VDict d) ->
  default (VStr "") (dict_get "command" d) = VStr name ->
  name <> "exit" ->
  unauthorized srv (default VNone (dict_get "token" d)) = false ->
  commands srv !! name = Some f ->
  f (default (VDict []) (dict_get "args" d)) = Raise e ->
  exn_class_of e <> JSONDecodeError ->
  handle_client h srv (c :: rest) =
    ([EvHandler (VStr name) (default (VDict []) (dict_get "args" d)); EvError e],
     CLOSED).
Proof.
  intros Hrun Hrecv Hdata Hdec Hload Hcmd Hne Hauth Hreg Hf Hcls.
  rewrite (handle_client_pass srv c rest data Hrun Hrecv Hdata).
  unfold serve_request.
  rewrite (request_body_decoded _ _ _ _ _ Hdec Hload).
  unfold dispatch. cbn [get]. rewrite !act_bind_ret, Hcmd, Hauth.
  assert (eq_str (VStr name) "exit" = false) as ->.
  { apply eq_str_false. congruence. }
  cbn [lookup_command]. rewrite Hreg.
  cbn [act_bind lift act_ret emit]. rewrite Hf. cbn [app except_class].
  by rewrite decide_False.
Qed.

(** X4: any command that can be hashed and is no key of the registry is
    answered the same way, with [str(command)] for a name. *)
Lemma unlisted_command_replied srv c rest data text d payload :
  io_running c = true ->
  io_recv c = Ret data ->
  data <> [] ->
  bytes_decode h data = Ret text ->
  json_loads h text = Ret (VDict d) ->
  eq_str (default (VStr "") (dict_get "command" d)) "exit" = false ->
  lookup_command srv (default (VStr "") (dict_get "command" d)) = Ret None ->
  unauthorized srv (default VNone (dict_get "token" d)) = false ->
  encode h (failure ("Unknown command: "
                       +:+ format h (default (VStr "") (dict_get "command" d))))
    = Ret payload ->
  io_send c payload = Ret tt ->
  handle_client h srv (c :: rest) =
    let '(evs, st) := handle_client h srv rest in (EvSend payload :: evs, st).
Proof.
  intros Hrun Hrecv Hdata Hdec Hload Hexit Hmiss Hauth Henc Hsend.
  apply handle_client_replied with data; try done.
  eapply serve_request_decoded; [exact Hdec | exact Hload |].
  unfold dispatch. cbn [get]. rewrite !act_bind_ret, Hexit, Hauth, Hmiss.
  cbn [act_bind lift act_ret]. by rewrite (reply_delivered _ _ _ Henc Hsend).
Qed.

(** X3: a list or a dict for a command cannot be looked up: [TypeError], and
    the connection is closed. *)
Lemma unhashable_command_closes srv c rest data text d command :
  io_running c = true ->
  io_recv c = Ret data ->
  data <> [] ->
  bytes_decode h data = Ret text ->
  json_loads h text = Ret (VDict d) ->
  dict_get "command" d = Some command ->
  type_name command = "list" \/ type_name command = "dict" ->
  unauthorized srv (default VNone (dict_get "token" d)) = false ->
  handle_client h srv (c :: rest) =
    ([EvError (Exn TypeError
                 ("unhashable type: '" +:+ type_name command +:+ "'"))],
     CLOSED).
Proof.
  intros Hrun Hrecv Hdata Hdec Hload Hcmd Hty Hauth.
  rewrite (handle_client_pass srv c rest data Hrun Hrecv Hdata).
  unfold serve_request.
  rewrite (request_body_decoded _ _ _ _ _ Hdec Hload).
  unfold dispatch. cbn [get]. rewrite !act_bind_ret, Hcmd in *.
  cbn [default] in *. rewrite Hauth.
  destruct command; destruct Hty as [Hty | Hty]; try discriminate Hty;
    cbn [eq_str lookup_command act_bind lift except_class exn_class_of];
    reflexivity.
Qed.

(** X2: JSON that is no object has no [get]: [AttributeError], and the
    connection is closed. *)
Lemma non_object_json_closes srv c rest data text command_data :
  io_running c = true ->
  io_recv c = Ret data ->
  data <> [] ->
  bytes_decode h data = Ret text ->
  json_loads h text = Ret command_data ->
  (forall d, command_data <> VDict d) ->
  handle_client h srv (c :: rest) =
    ([EvError (Exn AttributeError
                 ("'" +:+ type_name command_data
                      +:+ "' object has no attribute 'get'"))],
     CLOSED).
Proof.
  intros Hrun Hrecv Hdata Hdec Hload Hnd.
  rewrite (handle_client_pass srv c rest data Hrun Hrecv Hdata).
  unfold serve_request.
  rewrite (request_body_decoded _ _ _ _ _ Hdec Hload).
  unfold dispatch.
  destruct command_data; try (by destruct (Hnd d));
    cbn [get act_bind lift except_class exn_class_of]; reflexivity.
Qed.

End SessionFacts.

(** ** The handlers *)

Section HandlerFacts.
Variable h : Host.

Lemma res_bind_ret_inv {A B : Type} (m : res A) (f : A -> res B) (b : B) :
  m ≫= f = Ret b -> exists a, m = Ret a /\ f a = Ret b.
Proof. destruct m as [a|e]; cbn; [eauto | discriminate]. Qed.

Lemma guarded_inv body r :
  guarded body = Ret r ->
  body = Ret r \/ exists e, body = Raise e /\ r = failure (exn_msg e).
Proof.
  destruct body as [a|e]; cbn.
  - intros [= ->]. by left.
  - intros [= <-]. right. eauto.
Qed.

(** A handler wrapped in [try ... except Exception] returns. *)
Lemma guarded_returns body : exists r, guarded body = Ret r.
Proof. destruct body; cbn; eauto. Qed.

Lemma one_sided_success result : one_sided (success result) = true.
Proof. reflexivity. Qed.

Lemma one_sided_failure msg : one_sided (failure msg) = true.
Proof. reflexivity. Qed.

Lemma one_sided_find matches : one_sided (find_response matches) = true.
Proof. reflexivity. Qed.

(** Once the subprocess has run, [ping_host] fills both fields. *)
Lemma ping_response_two_sided cp :
  populated (ping_response cp) "result" = true /\
  populated (ping_response cp) "error" = true /\
  one_sided (ping_response cp) = false.
Proof. unfold ping_response. by destruct (returncode cp =? 0). Qed.

(** Peel the binds and tests of a handler body that returned. *)
Ltac peel H :=
  repeat first
    [ apply res_bind_ret_inv in H as (? & _ & H)
    | match type of H with
      | context [if ?b then _ else _] => destruct b
      end ];
  injection H as <-.

Ltac settle H :=
  apply guarded_inv in H as [H | (? & _ & ->)];
  [ peel H; reflexivity | reflexivity ].

Lemma get_system_info_one_sided args r :
  get_system_info h args = Ret r -> one_sided r = true.
Proof. unfold get_system_info. intros H. peel H. reflexivity. Qed.

Lemma list_directory_one_sided args r :
  list_directory h args = Ret r -> one_sided r = true.
Proof. unfold list_directory. intros H. settle H. Qed.

Lemma get_disk_space_one_sided args r :
  get_disk_space h args = Ret r -> one_sided r = true.
Proof. unfold get_disk_space. intros H. settle H. Qed.

Lemma get_process_list_one_sided args r :
  get_process_list h args = Ret r -> one_sided r = true.
Proof. unfold get_process_list. intros H. settle H. Qed.

Lemma get_memory_info_one_sided args r :
  get_memory_info h args = Ret r -> one_sided r = true.
Proof. unfold get_memory_info. intros H. settle H. Qed.

Lemma get_network_info_one_sided args r :
  get_network_info h args = Ret r -> one_sided r = true.
Proof. unfold get_network_info. intros H. settle H. Qed.

Lemma get_file_info_one_sided args r :
  get_file_info h args = Ret r -> one_sided r = true.
Proof. unfold get_file_info. intros H. settle H. Qed.

Lemma get_uptime_one_sided args r :
  get_uptime h args = Ret r -> one_sided r = true.
Proof. unfold get_uptime. intros H. settle H. Qed.

Lemma get_hostname_one_sided args r :
  get_hostname h args = Ret r -> one_sided r = true.
Proof. unfold get_hostname. intros H. settle H. Qed.

Lemma echo_message_one_sided args r :
  echo_message args = Ret r -> one_sided r = true.
Proof. unfold echo_message. intros H. peel H. reflexivity. Qed.

Lemma find_file_one_sided args r :
  find_file h args = Ret r -> one_sided r = true.
Proof. unfold find_file. intros H. settle H. Qed.

Lemma ping_host_shape args r :
  ping_host h args = Ret r ->
  one_sided r = true \/
  exists cmd cp, subprocess_run h cmd = Ret cp /\ r = ping_response cp.
Proof.
  unfold ping_host. intros H.
  apply guarded_inv in H as [H | (? & _ & ->)]; [| by left].
  apply res_bind_ret_inv in H as (host & _ & H).
  destruct (negb (truthy host)).
  { injection H as <-. by left. }
  apply res_bind_ret_inv in H as (count & _ & H).
  apply res_bind_ret_inv in H as (system & _ & H).
  apply res_bind_ret_inv in H as (cp & Hrun & H).
  injection H as <-. right. eauto.
Qed.

(** The registry holds the twelve handlers and nothing else. *)
Lemma registry_cases name f :
  registry h !! name = Some f ->
  (name, f) ∈
    [("sysinfo", get_system_info h); ("listdir", list_directory h);
     ("diskspace", get_disk_space h); ("processlist", get_process_list h);
     ("meminfo", get_memory_info h); ("netinfo", get_network_info h);
     ("fileinfo", get_file_info h); ("uptime", get_uptime h);
     ("hostname", get_hostname h); ("echo", echo_message);
     ("ping", ping_host h); ("findfile", find_file h)].
Proof. unfold registry. apply elem_of_list_to_map_2. Qed.

Ltac by_handler H :=
  apply registry_cases in H;
  repeat (apply elem_of_cons in H as [[= -> ->] | H]);
  [ .. | by apply elem_of_nil in H ].

(** C3, as the code has it: every response of every handler carries
    exactly one of [result] and [error], the one its status names, except
    the response [ping_host] builds once the subprocess has run, which
    carries both (stdout and stderr) under either status. *)
Theorem one_sided_except_ping_run name f args r :
  registry h !! name = Some f ->
  f args = Ret r ->
  one_sided r = true \/
  (name = "ping" /\
   exists cmd cp, subprocess_run h cmd = Ret cp /\ r = ping_response cp /\
     populated r "result" = true /\ populated r "error" = true).
Proof.
  intros Hreg Hret. by_handler Hreg.
  - left. by eapply get_system_info_one_sided.
  - left. by eapply list_directory_one_sided.
  - left. by eapply get_disk_space_one_sided.
  - left. by eapply get_process_list_one_sided.
  - left. by eapply get_memory_info_one_sided.
  - left. by eapply get_network_info_one_sided.
  - left. by eapply get_file_info_one_sided.
  - left. by eapply get_uptime_one_sided.
  - left. by eapply get_hostname_one_sided.
  - left. by eapply echo_message_one_sided.
  - destruct (ping_host_shape _ _ Hret) as [Hone | (cmd & cp & Hrun & ->)];
      [by left | right].
    split; [reflexivity |]. exists cmd, cp.
    by destruct (ping_response_two_sided cp) as (? & ? & _).
  - left. by eapply find_file_one_sided.
Qed.

(** X12: every handler that wraps its body in [try] returns on every
    argument; the two that do not are [sysinfo], which never looks at its
    argument, and [echo]. *)
Lemma guarded_handlers_return name f args :
  registry h !! name = Some f ->
  name <> "sysinfo" ->
  name <> "echo" ->
  exists r, f args = Ret r.
Proof.
  intros Hreg Hsys Hecho. by_handler Hreg; try done; apply guarded_returns.
Qed.

(** C2, where the code leaves the claim: [echo_message] has no [try], so
    on an argument that is not a dict the [AttributeError] of [args.get]
    leaves the handler. *)
Theorem echo_raises_on_non_mapping args :
  (forall d, args <> VDict d) ->
  registry h !! "echo" = Some (echo_message) /\
  echo_message args =
    Raise (Exn AttributeError
             ("'" +:+ type_name args +:+ "' object has no attribute 'get'")).
Proof.
  intros Hnd. split; [reflexivity |].
  unfold echo_message. destruct args; try reflexivity. by destruct (Hnd d).
Qed.

End HandlerFacts.

(** ** [findfile] and [processlist] *)

Section SearchFacts.
Variable h : Host.

(** The inner loop never leaves with more than 100 matches when it was
    entered with fewer than 100. *)
Lemma find_in_names_bound pattern root names : forall matches out,
  (length matches < 100)%nat ->
  find_in_names h pattern root names matches = Ret out ->
  (length out <= 100)%nat.
Proof.
  induction names as [|name rest IH]; intros matches out Hlt; cbn [find_in_names].
  - intros [= <-]. lia.
  - destruct (lower h pattern) as [needle|e];
      cbn [mbind res_mbind res_bind]; [| discriminate].
    destruct (contains needle (str_lower h name)); [| by apply IH].
    match goal with
    | |- context [(100 <=? length ?m)%nat] => remember m as found eqn:Hfound
    end.
    assert (length found = S (length matches)) as Hlen.
    { subst found. rewrite length_app. cbn. lia. }
    destruct (100 <=? length found)%nat eqn:Hfull.
    + intros [= <-]. lia.
    + apply IH. by apply Nat.leb_gt in Hfull.
Qed.

Lemma find_in_walk_bound pattern steps stop : forall matches out,
  (length matches < 100)%nat ->
  find_in_walk h pattern steps stop matches = Ret out ->
  (length out <= 100)%nat.
Proof.
  induction steps as [|[[root dirs] files] rest IH]; intros matches out Hlt;
    cbn [find_in_walk].
  - destruct stop; [discriminate |]. intros [= <-]. lia.
  - destruct (find_in_names h pattern root (files ++ dirs) matches)
      as [found|e] eqn:Hnames; cbn [mbind res_mbind res_bind]; [| discriminate].
    pose proof (find_in_names_bound _ _ _ _ _ Hlt Hnames) as Hfound.
    destruct (100 <=? length found)%nat eqn:Hfull.
    + by intros [= <-].
    + apply IH. by apply Nat.leb_gt in Hfull.
Qed.

(** With a str for a pattern nothing in the two loops can raise but the
    walk itself. *)
Lemma find_in_names_returns p root names : forall matches,
  exists out, find_in_names h (VStr p) root names matches = Ret out.
Proof.
  induction names as [|name rest IH]; intros matches;
    cbn [find_in_names lower mbind res_mbind res_bind]; [eauto |].
  destruct (contains _ _); [| apply IH].
  destruct (100 <=? _)%nat; [eauto | apply IH].
Qed.

Lemma find_in_walk_returns p steps : forall matches,
  exists out, find_in_walk h (VStr p) steps None matches = Ret out.
Proof.
  induction steps as [|[[root dirs] files] rest IH]; intros matches;
    cbn [find_in_walk]; [eauto |].
  destruct (find_in_names_returns p root (files ++ dirs) matches) as [found ->].
  cbn [mbind res_mbind res_bind]. destruct (100 <=? _)%nat; [eauto | apply IH].
Qed.

(** C4: whatever the arguments and the tree, [find_file] returns, and a
    result list it returns holds at most 100 matches; when the pattern is a
    non-empty str and the walk does not fail, the response is the success
    envelope with such a list and its length as [count]. *)
Theorem find_file_at_most_100 args :
  (exists r, find_file h args = Ret r /\
     forall matches, field r "result" = Some (VList matches) ->
       (length matches <= 100)%nat) /\
  (forall d pattern,
     args = VDict d ->
     dict_get "pattern" d = Some (VStr pattern) ->
     pattern <> "" ->
     stops_with (os_walk h (default (VStr ".") (dict_get "path" d))) = None ->
     exists matches,
       find_file h args = Ret (find_response matches) /\
       (length matches <= 100)%nat).
Proof.
  split.
  - destruct (guarded_returns
                (pattern ← get args "pattern" VNone;
                 path ← get args "path" (VStr ".");
                 if negb (truthy pattern) then Ret (failure "No pattern specified")
                 else matches ← find_in_walk h pattern (items (os_walk h path))
                                  (stops_with (os_walk h path)) [];
                      Ret (find_response matches))) as [r Hr].
    exists r. split; [exact Hr |]. intros matches Hfield.
    apply guarded_inv in Hr as [Hr | (e & _ & ->)]; [| discriminate].
    apply res_bind_ret_inv in Hr as (pattern & _ & Hr).
    apply res_bind_ret_inv in Hr as (path & _ & Hr).
    destruct (negb (truthy pattern)).
    { injection Hr as <-. discriminate. }
    apply res_bind_ret_inv in Hr as (found & Hwalk & Hr).
    injection Hr as <-. injection Hfield as <-.
    eapply find_in_walk_bound; [| exact Hwalk]. cbn. lia.
  - intros d pattern -> Hpat Hne Hstop. unfold find_file. cbn [get].
    rewrite Hpat. change (default VNone (Some (VStr pattern))) with (VStr pattern).
    cbn [mbind res_mbind res_bind truthy].
    destruct (String.eqb_spec pattern "") as [|_]; [done |]. cbn [negb].
    rewrite Hstop.
    destruct (find_in_walk_returns pattern
                (items (os_walk h (default (VStr ".") (dict_get "path" d)))) [])
      as [found Hwalk].
    rewrite Hwalk. cbn [mbind res_mbind res_bind guarded try_except].
    exists found. split; [reflexivity |].
    eapply find_in_walk_bound; [| exact Hwalk]. cbn. lia.
Qed.

(** [l[:z]] for [z = 0] and for a negative [z]. *)
Lemma slice_bound_zero len : slice_bound 0 len = 0%nat.
Proof. unfold slice_bound. cbn. lia. Qed.

Lemma slice_bound_negative z len :
  z < 0 -> slice_bound z len = (len - Z.to_nat (- z))%nat.
Proof.
  intros Hz. unfold slice_bound.
  destruct (Z.ltb_spec z 0); lia.
Qed.

(** C10: with an integer limit, and the processes enumerated and sorted,
    [get_process_list] answers the success envelope with the slice
    [ordered[:limit]]: empty for 0, and for a negative limit the sorted list
    without its last [|limit|] entries. *)
Theorem process_list_integer_limit d z processes ordered :
  dict_get "limit" d = Some (VInt z) ->
  process_loop (items (psutil_process_iter h))
    (stops_with (psutil_process_iter h)) [] = Ret processes ->
  sorted_by h memory_key true processes = Ret ordered ->
  get_process_list h (VDict d) =
    Ret (success (VList (take (slice_bound z (length ordered)) ordered))) /\
  (z = 0 -> take (slice_bound z (length ordered)) ordered = []) /\
  (z < 0 -> take (slice_bound z (length ordered)) ordered =
            take (length ordered - Z.to_nat (- z)) ordered).
Proof.
  intros Hlimit Hloop Hsort. split; [| split].
  - unfold get_process_list. cbn [get]. rewrite Hlimit. cbn.
    rewrite Hloop. cbn. rewrite Hsort. reflexivity.
  - intros ->. by rewrite slice_bound_zero.
  - intros Hz. by rewrite slice_bound_negative.
Qed.

End SearchFacts.

(** ** The properties on the demo host *)

Section DemoRuns.
Import Demo.

(** Scenario 2 of the spec, with a second request behind it. *)
Lemma bad_token_refused_witness :
  serve_request host secured hostname_wrong
    (wire (request "hostname" [("token", VStr "wrong")]))
  = ([EvSend (wire (failure "Unauthorized"))], Ret false) /\
  handle_client host secured [hostname_wrong; hostname_bare] =
    let '(evs, st) := handle_client host secured [hostname_bare] in
    (EvSend (wire (failure "Unauthorized")) :: evs, st).
Proof.
  eapply (bad_token_refused host secured hostname_wrong [hostname_bare]
            _ _ [("command", VStr "hostname"); ("token", VStr "wrong")] "secret").
  - reflexivity.
  - reflexivity.
  - reflexivity.
  - discriminate.
  - vm_compute. reflexivity.
  - vm_compute. reflexivity.
  - vm_compute. discriminate.
  - vm_compute. discriminate.
  - vm_compute. reflexivity.
  - reflexivity.
Defined.

(** C1 as stated fails for "exit": the command is tested before the
    token, so the loop is left with no "Unauthorized" reply. *)
Lemma exit_skips_token_check :
  ~ (forall (h : Host) srv c rest data text d tok payload,
       auth_token srv = Some tok ->
       io_running c = true ->
       io_recv c = Ret data ->
       data <> [] ->
       bytes_decode h data = Ret text ->
       json_loads h text = Ret (VDict d) ->
       dict_get "token" d <> Some (VStr tok) ->
       encode h (failure "Unauthorized") = Ret payload ->
       io_send c payload = Ret tt ->
       handle_client h srv (c :: rest) =
         let '(evs, st) := handle_client h srv rest in
         (EvSend payload :: evs, st)).
Proof.
  intros claim.
  assert (handle_client host secured [exit_wrong] =
          ([EvSend (wire (failure "Unauthorized"))], OPEN)) as Hrun.
  { eapply (claim host secured exit_wrong []
              _ _ [("command", VStr "exit"); ("token", VStr "wrong")] "secret").
    - reflexivity.
    - reflexivity.
    - reflexivity.
    - discriminate.
    - vm_compute. reflexivity.
    - vm_compute. reflexivity.
    - vm_compute. discriminate.
    - vm_compute. reflexivity.
    - reflexivity. }
  vm_compute in Hrun. discriminate.
Qed.

Lemma token_ignored_in_open_mode_witness :
  handle_client host open_mode [echo_hi_token; reboot] =
  handle_client host open_mode [echo_hi; reboot].
Proof.
  eapply (token_ignored_in_open_mode host open_mode echo_hi_token echo_hi [reboot]
            _ _ _ _
            [("command", VStr "echo"); ("args", VDict [("message", VStr "hi")])]
            (VStr "any")).
  - reflexivity.
  - reflexivity.
  - reflexivity.
  - reflexivity.
  - reflexivity.
  - reflexivity.
  - discriminate.
  - discriminate.
  - vm_compute. reflexivity.
  - vm_compute. reflexivity.
  - vm_compute. reflexivity.
  - vm_compute. reflexivity.
Defined.

Lemma unknown_command_replied_witness :
  serve_request host open_mode reboot (wire (request "reboot" []))
  = ([EvSend (wire (failure "Unknown command: reboot"))], Ret false) /\
  handle_client host open_mode [reboot; echo_hi] =
    let '(evs, st) := handle_client host open_mode [echo_hi] in
    (EvSend (wire (failure "Unknown command: reboot")) :: evs, st).
Proof.
  eapply (unknown_command_replied host open_mode reboot [echo_hi]
            _ _ [("command", VStr "reboot")] "reboot").
  - reflexivity.
  - reflexivity.
  - discriminate.
  - vm_compute. reflexivity.
  - vm_compute. reflexivity.
  - reflexivity.
  - discriminate.
  - reflexivity.
  - reflexivity.
  - vm_compute. reflexivity.
  - reflexivity.
Defined.

(** The failing input of C7: the one byte 0xFF. *)
Lemma undecodable_bytes_close_witness :
  handle_client host open_mode [receives [Byte.xff]; hostname_bare] =
  ([EvError (Exn UnicodeDecodeError "'utf-8' codec can't decode bytes")], CLOSED).
Proof.
  apply (undecodable_bytes_close host open_mode (receives [Byte.xff])
           [hostname_bare] [Byte.xff]).
  - reflexivity.
  - reflexivity.
  - discriminate.
  - reflexivity.
  - reflexivity.
Defined.

(** Scenario 5 of the spec. *)
Lemma exit_closes_without_reply_witness :
  handle_client host open_mode [receives (wire (request "exit" [])); echo_hi] =
  ([], CLOSED).
Proof.
  eapply (exit_closes_without_reply host open_mode
            (receives (wire (request "exit" []))) [echo_hi]
            _ _ [("command", VStr "exit")]).
  - reflexivity.
  - reflexivity.
  - discriminate.
  - vm_compute. reflexivity.
  - vm_compute. reflexivity.
  - reflexivity.
Defined.

(** The failing input of C2: [{"command": "echo", "args": "hi"}]. *)
Lemma echo_raises_on_non_mapping_witness :
  registry host !! "echo" = Some echo_message /\
  echo_message (VStr "hi") =
    Raise (Exn AttributeError
             ("'" +:+ type_name (VStr "hi") +:+ "' object has no attribute 'get'")).
Proof.
  apply (echo_raises_on_non_mapping host (VStr "hi")).
  intros d. discriminate.
Defined.

(** ... and what the connection sees of it. *)
Lemma echo_on_a_str_closes :
  handle_client host open_mode
    [receives (wire (request "echo" [("args", VStr "hi")])); hostname_bare] =
  ([EvHandler (VStr "echo") (VStr "hi");
    EvError (Exn AttributeError "'str' object has no attribute 'get'")],
   CLOSED).
Proof. vm_compute. reflexivity. Qed.

(** C3 as stated fails for [ping]: an unreachable host gives an error
    response whose [result] holds the output of the subprocess. *)
Lemma ping_fills_both_fields :
  ~ (forall (h : Host) name f args r,
       registry h !! name = Some f ->
       f args = Ret r ->
       one_sided r = true).
Proof.
  intros claim.
  assert (one_sided
            (VDict [("status", VStr "error");
                    ("result",
                     VStr "4 packets transmitted, 0 received, 100% packet loss");
                    ("error", VStr "")]) = true) as Hrun.
  { apply (claim host "ping" (ping_host host) (VDict [("host", VStr "10.0.0.9")])).
    - reflexivity.
    - vm_compute. reflexivity. }
  vm_compute in Hrun. discriminate.
Qed.

Lemma one_sided_except_ping_run_witness :
  one_sided (find_response []) = true \/
  ("findfile" = "ping" /\
   exists cmd cp, subprocess_run host cmd = Ret cp /\
     find_response [] = ping_response cp /\
     populated (find_response []) "result" = true /\
     populated (find_response []) "error" = true).
Proof.
  apply (one_sided_except_ping_run host "findfile" (find_file host)
           (VDict [("pattern", VStr "zip"); ("path", VStr "/var/log")])).
  - reflexivity.
  - vm_compute. reflexivity.
Defined.

(** The same run, read with the stricter sense of "populated": the error
    response of an unreachable host has an empty [error] and a full
    [result]. *)
Lemma ping_unreachable_run :
  ping_host host (VDict [("host", VStr "10.0.0.9")]) =
  Ret (VDict [("status", VStr "error");
              ("result", VStr "4 packets transmitted, 0 received, 100% packet loss");
              ("error", VStr "")]).
Proof. vm_compute. reflexivity. Qed.

(** 151 entries of [/var/log] match "LOG"; 100 come back. *)
Lemma find_file_at_most_100_witness :
  exists matches,
    find_file host (VDict [("pattern", VStr "LOG"); ("path", VStr "/var/log")])
    = Ret (find_response matches) /\
    (length matches <= 100)%nat.
Proof.
  apply (proj2 (find_file_at_most_100 host
                  (VDict [("pattern", VStr "LOG"); ("path", VStr "/var/log")]))
           [("pattern", VStr "LOG"); ("path", VStr "/var/log")] "LOG").
  - reflexivity.
  - reflexivity.
  - discriminate.
  - reflexivity.
Defined.

Lemma find_file_fills_the_cap :
  (r ← find_file host (VDict [("pattern", VStr "LOG"); ("path", VStr "/var/log")]);
   Ret (field r "count")) = Ret (Some (VInt 100)).
Proof. vm_compute. reflexivity. Qed.

Lemma process_list_integer_limit_witness :
  get_process_list host (VDict [("limit", VInt (-1))]) =
    Ret (success (VList (take (slice_bound (-1) (length by_memory)) by_memory))) /\
  (-1 = 0 -> take (slice_bound (-1) (length by_memory)) by_memory = []) /\
  (-1 < 0 -> take (slice_bound (-1) (length by_memory)) by_memory =
             take (length by_memory - Z.to_nat (- -1)) by_memory).
Proof.
  eapply (process_list_integer_limit host [("limit", VInt (-1))] (-1) _ by_memory).
  - reflexivity.
  - vm_compute. reflexivity.
  - vm_compute. reflexivity.
Defined.

(** Limits 0 and -1 on the demo host: nothing, and all but the smallest. *)
Lemma process_list_limits_run :
  get_process_list host (VDict [("limit", VInt 0)]) = Ret (success (VList [])) /\
  get_process_list host (VDict [("limit", VInt (-1))]) =
    Ret (success (VList (take 2 by_memory))).
Proof. split; vm_compute; reflexivity. Qed.

End DemoRuns.

(** ** More on the connection loop *)

Section TraceFacts.
Variable h : Host.

Lemma reply_cases c response :
  (exists payload, reply h c response = ([EvSend payload], Ret tt)) \/
  (exists e, reply h c response = ([], Raise e)).
Proof.
  unfold reply. destruct (encode h response) as [payload|e]; [| right; eauto].
  rewrite act_bind_ret.
  destruct (io_send c payload) as [[]|e]; [left | right]; eauto.
Qed.

(** The events of the inner [try] after [json.loads]. *)
Lemma dispatch_events srv c command_data :
  pass_events srv (dispatch h srv c command_data).1.
Proof.
  unfold dispatch.
  destruct (get command_data "command" (VStr "")) as [command|e];
    [rewrite act_bind_ret | constructor].
  destruct (get command_data "args" (VDict [])) as [args|e];
    [rewrite act_bind_ret | constructor].
  destruct (get command_data "token" VNone) as [token|e];
    [rewrite act_bind_ret | constructor].
  destruct (eq_str command "exit"); [constructor |].
  destruct (unauthorized srv token).
  { destruct (reply_cases c (failure "Unauthorized")) as [[p ->] | [e ->]];
      constructor. }
  destruct (lookup_command srv command) as [[f|]|e] eqn:Hlook;
    [| | constructor].
  - assert (exists name, command = VStr name /\ commands srv !! name = Some f)
      as (name & -> & Hreg).
    { destruct command; cbn in Hlook; try discriminate.
      injection Hlook as Hlook. eauto. }
    rewrite act_bind_ret. cbn [emit act_bind lift].
    destruct (f args) as [response|e]; cbn [app fst]; [| by econstructor].
    destruct (reply_cases c response) as [[p ->] | [e ->]];
      cbn [app fst]; by econstructor.
  - rewrite act_bind_ret. cbn [act_ret act_bind].
    destruct (reply_cases c (failure ("Unknown command: " +:+ format h command)))
      as [[p ->] | [e ->]]; constructor.
Qed.

(** A pass that has sent its reply does not raise afterwards. *)
Lemma dispatch_raise_unsent srv c command_data e :
  (dispatch h srv c command_data).2 = Raise e ->
  sends (dispatch h srv c command_data).1 = 0%nat.
Proof.
  unfold dispatch.
  destruct (get command_data "command" (VStr "")) as [command|e0];
    [rewrite act_bind_ret | reflexivity].
  destruct (get command_data "args" (VDict [])) as [args|e0];
    [rewrite act_bind_ret | reflexivity].
  destruct (get command_data "token" VNone) as [token|e0];
    [rewrite act_bind_ret | reflexivity].
  destruct (eq_str command "exit"); [discriminate |].
  destruct (unauthorized srv token).
  { destruct (reply_cases c (failure "Unauthorized")) as [[p ->] | [e0 ->]];
      [discriminate | reflexivity]. }
  destruct (lookup_command srv command) as [[f|]|e0]; [| | reflexivity].
  - rewrite act_bind_ret. cbn [emit act_bind lift].
    destruct (f args) as [response|e0]; cbn [app fst snd]; [| reflexivity].
    destruct (reply_cases c response) as [[p ->] | [e0 ->]];
      cbn [app fst snd]; [discriminate | reflexivity].
  - rewrite act_bind_ret. cbn [act_ret act_bind].
    destruct (reply_cases c (failure ("Unknown command: " +:+ format h command)))
      as [[p ->] | [e0 ->]]; [discriminate | reflexivity].
Qed.

Lemma request_body_events srv c data :
  pass_events srv (request_body h srv c data).1 /\
  forall e, (request_body h srv c data).2 = Raise e ->
            sends (request_body h srv c data).1 = 0%nat.
Proof.
  unfold request_body.
  destruct (bytes_decode h data) as [text|e0];
    [rewrite act_bind_ret | split; [constructor | reflexivity]].
  destruct (json_loads h text) as [command_data|e0];
    [rewrite act_bind_ret | split; [constructor | reflexivity]].
  split; [apply dispatch_events | apply dispatch_raise_unsent].
Qed.

Lemma pass_events_sends srv evs : pass_events srv evs -> (sends evs <= 1)%nat.
Proof. destruct 1; cbn; lia. Qed.

Lemma pass_events_no_error srv evs :
  pass_events srv evs -> List.filter is_error evs = [].
Proof. by destruct 1. Qed.

Lemma pass_events_calls srv evs command args :
  pass_events srv evs ->
  EvHandler command args ∈ evs ->
  exists name f, command = VStr name /\ commands srv !! name = Some f.
Proof.
  destruct 1; intros Hin;
    repeat match goal with
           | H : _ ∈ _ :: _ |- _ => apply elem_of_cons in H as [H | H]
           | H : _ ∈ [] |- _ => by apply elem_of_nil in H
           end;
    simplify_eq; eauto.
Qed.

(** The events of one whole pass, the [except json.JSONDecodeError]
    included: still at most one reply, and never a logged error. *)
Lemma serve_request_events srv c data :
  (sends (serve_request h srv c data).1 <= 1)%nat /\
  List.filter is_error (serve_request h srv c data).1 = [] /\
  forall command args,
    EvHandler command args ∈ (serve_request h srv c data).1 ->
    exists name f, command = VStr name /\ commands srv !! name = Some f.
Proof.
  unfold serve_request.
  destruct (request_body_events srv c data) as [Hshape Hraise].
  destruct (request_body h srv c data) as [evs [b|e]] eqn:Hbody;
    cbn [fst snd except_class] in *.
  - split; [by eapply pass_events_sends |].
    split; [by eapply pass_events_no_error |].
    intros command args. by apply pass_events_calls.
  - destruct (decide (exn_class_of e = JSONDecodeError)); cbn [fst].
    + specialize (Hraise e eq_refl).
      destruct (reply_cases c (failure "Invalid command format"))
        as [[p ->] | [e' ->]]; cbn [act_bind act_ret fst app];
        unfold sends in *; rewrite ?List.filter_app, ?length_app, ?app_nil_r.
      * split; [rewrite Hraise; cbn; lia |]. split.
        { by eapply pass_events_no_error. }
        intros command args Hin. apply elem_of_app in Hin as [Hin | Hin].
        { by eapply pass_events_calls. }
        apply elem_of_cons in Hin as [Hin | Hin]; [discriminate |].
        by apply elem_of_nil in Hin.
      * split; [rewrite Hraise; cbn; lia |].
        split; [by eapply pass_events_no_error |].
        intros command args. by apply pass_events_calls.
    + split; [by eapply pass_events_sends |].
      split; [by eapply pass_events_no_error |].
      intros command args. by apply pass_events_calls.
Qed.

(** X7: a closed connection reads nothing more, and an open one goes on
    where it stood: the loop over [p1 ++ p2] is the loop over [p1],
    followed by the loop over [p2] exactly when [p1] left it open. *)
Theorem handle_client_app srv p1 p2 :
  handle_client h srv (p1 ++ p2) =
    match handle_client h srv p1 with
    | (evs, CLOSED) => (evs, CLOSED)
    | (evs, OPEN) =>
        let '(evs', st) := handle_client h srv p2 in (evs ++ evs', st)
    end.
Proof.
  induction p1 as [|c rest IH]; cbn [app handle_client].
  - by destruct (handle_client h srv p2).
  - destruct (negb (io_running c)); [reflexivity |].
    destruct (io_recv c) as [[|b data]|e]; try reflexivity.
    destruct (serve_request h srv c (b :: data)) as [evs [[|]|e]];
      try reflexivity.
    rewrite IH. destruct (handle_client h srv rest) as [evs1 [|]];
      [| reflexivity].
    destruct (handle_client h srv p2) as [evs2 st2]. by rewrite app_assoc.
Qed.

(** X8: the protocol is one reply per message at most: a trace never
    holds more replies than messages were received. *)
Theorem one_reply_per_message srv passes :
  (sends (handle_client h srv passes).1 <= length passes)%nat.
Proof.
  induction passes as [|c rest IH]; cbn [handle_client length]; [cbn; lia |].
  destruct (negb (io_running c)); [cbn; lia |].
  destruct (io_recv c) as [[|b data]|e]; try (cbn; lia).
  destruct (serve_request_events srv c (b :: data)) as (Hsend & _ & _).
  destruct (serve_request h srv c (b :: data)) as [evs [[|]|e]];
    cbn [fst] in *.
  - lia.
  - destruct (handle_client h srv rest) as [evs1 st1]. cbn [fst] in *.
    unfold sends in *. rewrite List.filter_app, length_app. lia.
  - unfold sends in *. rewrite List.filter_app, length_app. cbn. lia.
Qed.

(** X9: an error is logged at most once per connection, as the last
    event, and the connection is closed then. *)
Theorem error_ends_session srv passes :
  List.filter is_error (handle_client h srv passes).1 = [] \/
  ((handle_client h srv passes).2 = CLOSED /\
   exists evs e, (handle_client h srv passes).1 = evs ++ [EvError e] /\
                 List.filter is_error evs = []).
Proof.
  induction passes as [|c rest IH]; cbn [handle_client]; [by left |].
  destruct (negb (io_running c)); [by left |].
  destruct (io_recv c) as [[|b data]|e]; [by left | | right].
  2: { split; [reflexivity |]. by exists [], e. }
  destruct (serve_request_events srv c (b :: data)) as (_ & Hclean & _).
  destruct (serve_request h srv c (b :: data)) as [evs [[|]|e]];
    cbn [fst snd] in *.
  - by left.
  - destruct (handle_client h srv rest) as [evs1 st1]. cbn [fst snd] in *.
    destruct IH as [IH | (-> & evs2 & e & -> & IH)].
    + left. by rewrite List.filter_app, Hclean, IH.
    + right. split; [reflexivity |]. exists (evs ++ evs2), e.
      split; [by rewrite app_assoc |]. by rewrite List.filter_app, Hclean, IH.
  - right. split; [reflexivity |]. by exists evs, e.
Qed.

(** X10: whatever arrives on a connection, the only handlers ever called
    are values of the registry, each under its own key. *)
Theorem only_registered_handlers_run srv passes command args :
  EvHandler command args ∈ (handle_client h srv passes).1 ->
  exists name f, command = VStr name /\ commands srv !! name = Some f.
Proof.
  induction passes as [|c rest IH]; cbn [handle_client].
  { intros Hin. by apply elem_of_nil in Hin. }
  destruct (negb (io_running c)).
  { intros Hin. by apply elem_of_nil in Hin. }
  destruct (io_recv c) as [[|b data]|e].
  - intros Hin. by apply elem_of_nil in Hin.
  - destruct (serve_request_events srv c (b :: data)) as (_ & _ & Hcalls).
    destruct (serve_request h srv c (b :: data)) as [evs [[|]|e]];
      cbn [fst] in *.
    + apply Hcalls.
    + destruct (handle_client h srv rest) as [evs1 st1]. cbn [fst] in *.
      intros Hin. apply elem_of_app in Hin as [Hin | Hin]; eauto.
    + intros Hin. apply elem_of_app in Hin as [Hin | Hin]; [eauto |].
      apply elem_of_cons in Hin as [Hin | Hin]; [discriminate |].
      by apply elem_of_nil in Hin.
  - intros Hin. apply elem_of_cons in Hin as [Hin | Hin]; [discriminate |].
    by apply elem_of_nil in Hin.
Qed.

(** X6: an authorized request for a command of the registry calls that
    handler once on the request's [args] (an empty dict when absent), sends
    what it returns, and the loop goes on. *)
Theorem known_command_dispatched srv c rest data text d name f response payload :
  io_running c = true ->
  io_recv c = Ret data ->
  data <> [] ->
  bytes_decode h data = Ret text ->
  json_loads h text = Ret (VDict d) ->
  default (VStr "") (dict_get "command" d) = VStr name ->
  name <> "exit" ->
  unauthorized srv (default VNone (dict_get "token" d)) = false ->
  commands srv !! name = Some f ->
  f (default (VDict []) (dict_get "args" d)) = Ret response ->
  encode h response = Ret payload ->
  io_send c payload = Ret tt ->
  handle_client h srv (c :: rest) =
    let '(evs, st) := handle_client h srv rest in
    (EvHandler (VStr name) (default (VDict []) (dict_get "args" d))
       :: EvSend payload :: evs, st).
Proof.
  intros Hrun Hrecv Hdata Hdec Hload Hcmd Hne Hauth Hreg Hf Henc Hsend.
  rewrite (handle_client_pass h srv c rest data Hrun Hrecv Hdata).
  unfold serve_request.
  rewrite (request_body_decoded h _ _ _ _ _ Hdec Hload).
  unfold dispatch. cbn [get]. rewrite !act_bind_ret, Hcmd, Hauth.
  assert (eq_str (VStr name) "exit" = false) as ->.
  { apply eq_str_false. congruence. }
  cbn [lookup_command]. rewrite Hreg.
  cbn [act_bind lift act_ret emit]. rewrite Hf.
  rewrite (reply_delivered h _ _ _ Henc Hsend). cbn [app except_class].
  by destruct (handle_client h srv rest).
Qed.

(** A token that equals the configured one passes the check, and only
    such a token does. *)
Lemma token_check_exact srv tok token :
  auth_token srv = Some tok ->
  unauthorized srv token = false <-> token = VStr tok.
Proof.
  intros Htok. unfold unauthorized. rewrite Htok.
  rewrite negb_false_iff. apply eq_str_true.
Qed.

End TraceFacts.

(** ** More on the handlers *)

Section LoopFacts.
Variable h : Host.

(** X13: a required argument that is absent or falsy (None, "", 0, [],
    {}, false) is refused by name, before the host is asked anything. *)
Theorem required_argument_missing d :
  (truthy (default VNone (dict_get "path" d)) = false ->
   get_file_info h (VDict d) = Ret (failure "No path specified")) /\
  (truthy (default VNone (dict_get "host" d)) = false ->
   ping_host h (VDict d) = Ret (failure "No host specified")) /\
  (truthy (default VNone (dict_get "pattern" d)) = false ->
   find_file h (VDict d) = Ret (failure "No pattern specified")).
Proof.
  repeat split; intros Hfalsy.
  - unfold get_file_info. cbn [get mbind res_mbind res_bind].
    by rewrite Hfalsy.
  - unfold ping_host. cbn [get mbind res_mbind res_bind].
    by rewrite Hfalsy.
  - unfold find_file. cbn [get mbind res_mbind res_bind].
    by rewrite Hfalsy.
Qed.

Lemma list_directory_loop_all p stats files : forall file_info,
  (forall file, file ∈ files ->
     os_stat h (VStr (path_join h p file)) = Ret (stats file)) ->
  list_directory_loop h (VStr p) files file_info =
    Ret (file_info ++ map (listing_entry h p stats) files).
Proof.
  induction files as [|file rest IH]; intros file_info Hstat;
    cbn [list_directory_loop map].
  - by rewrite app_nil_r.
  - cbn [os_path_join os_path_isdir mbind res_mbind res_bind].
    rewrite (Hstat file) by apply list_elem_of_here.
    cbn [mbind res_mbind res_bind]. rewrite IH.
    + by rewrite <- app_assoc.
    + intros file' Hin. apply Hstat. by apply list_elem_of_further.
Qed.

(** X14: when every entry can be stat'ed, the listing has one entry per
    name [os.listdir] gave, in that order; the path defaults to ".". *)
Theorem list_directory_lists_all d p files stats :
  default (VStr ".") (dict_get "path" d) = VStr p ->
  os_listdir h (VStr p) = Ret files ->
  (forall file, file ∈ files ->
     os_stat h (VStr (path_join h p file)) = Ret (stats file)) ->
  list_directory h (VDict d) =
    Ret (success (VList (map (listing_entry h p stats) files))).
Proof.
  intros Hpath Hlist Hstat. unfold list_directory.
  cbn [get mbind res_mbind res_bind]. rewrite Hpath, Hlist.
  cbn [mbind res_mbind res_bind].
  by rewrite (list_directory_loop_all p stats files [] Hstat).
Qed.

Lemma list_directory_loop_fails p stats before bad after e : forall file_info,
  (forall file, file ∈ before ->
     os_stat h (VStr (path_join h p file)) = Ret (stats file)) ->
  os_stat h (VStr (path_join h p bad)) = Raise e ->
  list_directory_loop h (VStr p) (before ++ bad :: after) file_info = Raise e.
Proof.
  induction before as [|file rest IH]; intros file_info Hstat Hbad;
    cbn [app list_directory_loop os_path_join mbind res_mbind res_bind].
  - by rewrite Hbad.
  - rewrite (Hstat file) by apply list_elem_of_here.
    cbn [os_path_isdir mbind res_mbind res_bind]. apply IH; [| exact Hbad].
    intros file' Hin. apply Hstat. by apply list_elem_of_further.
Qed.

(** X15: one entry that cannot be stat'ed (a dangling link, a file removed
    in between) fails the whole listing: the answer is the error of that
    entry and none of the entries read before it. *)
Theorem list_directory_all_or_nothing d p before bad after stats e :
  default (VStr ".") (dict_get "path" d) = VStr p ->
  os_listdir h (VStr p) = Ret (before ++ bad :: after) ->
  (forall file, file ∈ before ->
     os_stat h (VStr (path_join h p file)) = Ret (stats file)) ->
  os_stat h (VStr (path_join h p bad)) = Raise e ->
  list_directory h (VDict d) = Ret (failure (exn_msg e)).
Proof.
  intros Hpath Hlist Hstat Hbad. unfold list_directory.
  cbn [get mbind res_mbind res_bind]. rewrite Hpath, Hlist.
  cbn [mbind res_mbind res_bind].
  by rewrite (list_directory_loop_fails p stats before bad after e [] Hstat Hbad).
Qed.

(** X16: the process loop drops the processes whose [info] raises one of
    the three psutil exceptions and keeps all the others, in order. *)
Theorem process_loop_skips procs : forall processes,
  Forall (fun info => forall e, info = Raise e -> psutil_skipped e = true) procs ->
  process_loop procs None processes = Ret (processes ++ visible procs).
Proof.
  induction procs as [|info rest IH]; intros processes Hok;
    cbn [process_loop visible omap].
  - by rewrite app_nil_r.
  - apply Forall_cons in Hok as [Hinfo Hrest].
    destruct info as [pinfo|e].
    + rewrite (IH _ Hrest). unfold visible. by rewrite <- app_assoc.
    + rewrite (Hinfo e eq_refl). by rewrite (IH _ Hrest).
Qed.

Lemma process_loop_stops before e after stop : forall processes,
  Forall (fun info => forall e', info = Raise e' -> psutil_skipped e' = true)
    before ->
  psutil_skipped e = false ->
  process_loop (before ++ Raise e :: after) stop processes = Raise e.
Proof.
  induction before as [|info rest IH]; intros processes Hbefore Hbad;
    cbn [app process_loop].
  - by rewrite Hbad.
  - apply Forall_cons in Hbefore as [Hinfo Hrest].
    destruct info as [pinfo|e']; [by apply IH |].
    rewrite (Hinfo e' eq_refl). by apply IH.
Qed.

(** X17: any other exception of a process ends the enumeration, and the
    handler answers with it. *)
Theorem process_list_fails_on_other_error d before e after :
  items (psutil_process_iter h) = before ++ Raise e :: after ->
  Forall (fun info => forall e', info = Raise e' -> psutil_skipped e' = true)
    before ->
  psutil_skipped e = false ->
  get_process_list h (VDict d) = Ret (failure (exn_msg e)).
Proof.
  intros Hitems Hbefore Hbad. unfold get_process_list.
  cbn [get mbind res_mbind res_bind]. rewrite Hitems.
  by rewrite (process_loop_stops before e after _ [] Hbefore Hbad).
Qed.

Lemma take_slice_bound_nonneg (l : list value) z :
  0 <= z -> take (slice_bound z (length l)) l = take (Z.to_nat z) l.
Proof.
  intros Hz. unfold slice_bound.
  destruct (Z.ltb_spec z 0) as [Hneg | _]; [lia |].
  destruct (Z.le_ge_cases z (Z.of_nat (length l))) as [Hle | Hge].
  - by rewrite Z.min_l by lia.
  - rewrite Z.min_r by lia. rewrite Nat2Z.id.
    rewrite take_ge by lia. by rewrite take_ge by lia.
Qed.

(** X18: without a [limit] the answer holds the first ten of the sorted
    processes, and with a limit [z >= 0] the first [z], never more. *)
Theorem process_list_default_and_bound d processes ordered :
  process_loop (items (psutil_process_iter h))
    (stops_with (psutil_process_iter h)) [] = Ret processes ->
  sorted_by h memory_key true processes = Ret ordered ->
  (dict_get "limit" d = None ->
   get_process_list h (VDict d) = Ret (success (VList (take 10 ordered)))) /\
  (forall z, dict_get "limit" d = Some (VInt z) -> 0 <= z ->
   get_process_list h (VDict d) =
     Ret (success (VList (take (Z.to_nat z) ordered))) /\
   Z.of_nat (length (take (Z.to_nat z) ordered)) <= z).
Proof.
  intros Hloop Hsort. split.
  - intros Hnone. unfold get_process_list. cbn [get]. rewrite Hnone.
    cbn [default mbind res_mbind res_bind]. rewrite Hloop.
    cbn [mbind res_mbind res_bind]. rewrite Hsort.
    cbn [mbind res_mbind res_bind slice_to guarded try_except].
    by rewrite (take_slice_bound_nonneg ordered 10) by lia.
  - intros z Hlimit Hz. split.
    + unfold get_process_list. cbn [get]. rewrite Hlimit.
      cbn [default mbind res_mbind res_bind]. rewrite Hloop.
      cbn [mbind res_mbind res_bind]. rewrite Hsort.
      unfold id. cbn [mbind res_mbind res_bind slice_to guarded try_except].
      by rewrite (take_slice_bound_nonneg ordered z) by lia.
    + rewrite length_take. lia.
Qed.

(** X19: a [limit] that is a str, a float, a list or a dict is answered
    with the error of the slice, after the processes were enumerated and
    sorted. *)
Theorem process_list_rejects_non_integer_limit d limit processes ordered :
  dict_get "limit" d = Some limit ->
  type_name limit ∈ ["str"; "float"; "list"; "dict"] ->
  process_loop (items (psutil_process_iter h))
    (stops_with (psutil_process_iter h)) [] = Ret processes ->
  sorted_by h memory_key true processes = Ret ordered ->
  get_process_list h (VDict d) =
    Ret (failure
           "slice indices must be integers or None or have an __index__ method").
Proof.
  intros Hlimit Hty Hloop Hsort. unfold get_process_list. cbn [get].
  rewrite Hlimit. cbn [default mbind res_mbind res_bind]. rewrite Hloop.
  cbn [mbind res_mbind res_bind]. rewrite Hsort.
  cbn [mbind res_mbind res_bind].
  destruct limit; try reflexivity; exfalso; cbn in Hty;
    repeat (apply elem_of_cons in Hty as [Hty | Hty]; [discriminate |]);
    by apply elem_of_nil in Hty.
Qed.

End LoopFacts.

(** ** What [find_file] finds *)

Section FindFacts.
Variable h : Host.

Lemma take_all_below (l : list value) (n : nat) :
  (length l <= n)%nat -> take n l = l.
Proof. intros Hle. by apply take_ge. Qed.

(** The inner loop with a str pattern: the first hundred of what was
    found before and what this directory adds. *)
Lemma find_in_names_spec p root names : forall matches,
  (length matches < 100)%nat ->
  find_in_names h (VStr p) root names matches =
    Ret (take 100
           (matches ++
            map (match_entry h root)
              (List.filter
                 (fun name => contains (str_lower h p) (str_lower h name))
                 names))).
Proof.
  induction names as [|name rest IH]; intros matches Hlt;
    cbn [find_in_names lower mbind res_mbind res_bind List.filter map].
  - rewrite app_nil_r. by rewrite take_all_below by lia.
  - destruct (contains (str_lower h p) (str_lower h name)); [| by apply IH].
    cbn [map]. fold (match_entry h root name).
    destruct (100 <=? length (matches ++ [match_entry h root name]))%nat
      eqn:Hfull.
    + apply Nat.leb_le in Hfull.
      assert (length (matches ++ [match_entry h root name]) = 100%nat) as Hlen.
      { rewrite length_app in *. cbn in *. lia. }
      match goal with
      | |- _ = Ret (take 100 (matches ++ ?e :: ?tail)) =>
          replace (matches ++ e :: tail) with ((matches ++ [e]) ++ tail)
            by (by rewrite <- app_assoc)
      end.
      rewrite take_app_le by lia.
      by rewrite take_all_below by lia.
    + apply Nat.leb_gt in Hfull. rewrite IH by exact Hfull.
      by rewrite <- app_assoc.
Qed.

(** The outer loop with a str pattern, whatever ends the walk. *)
Lemma find_in_walk_spec p steps stop : forall matches,
  (length matches < 100)%nat ->
  find_in_walk h (VStr p) steps stop matches =
    if (100 <=? length (matches ++ all_matches h p steps))%nat
    then Ret (take 100 (matches ++ all_matches h p steps))
    else match stop with
         | None => Ret (matches ++ all_matches h p steps)
         | Some e => Raise e
         end.
Proof.
  induction steps as [|[[root dirs] files] rest IH]; intros matches Hlt;
    cbn [find_in_walk all_matches flat_map].
  - rewrite app_nil_r.
    destruct (100 <=? length matches)%nat eqn:Hfull; [| reflexivity].
    apply Nat.leb_le in Hfull. lia.
  - rewrite (find_in_names_spec p root (files ++ dirs) matches Hlt).
    cbn [mbind res_mbind res_bind].
    fold (all_matches h p rest). fold (matching h p (root, dirs, files)).
    set (here := matching h p (root, dirs, files)).
    set (later := all_matches h p rest).
    destruct (100 <=? length (take 100 (matches ++ here)))%nat eqn:Hfull.
    + apply Nat.leb_le in Hfull. rewrite length_take in Hfull.
      assert (100 <= length (matches ++ here ++ later))%nat as Hall.
      { rewrite app_assoc, length_app. lia. }
      apply Nat.leb_le in Hall. rewrite Hall.
      rewrite (app_assoc matches here later).
      by rewrite (take_app_le (matches ++ here) later 100) by lia.
    + apply Nat.leb_gt in Hfull. rewrite length_take in Hfull.
      rewrite take_all_below by lia.
      rewrite IH by lia. by rewrite <- app_assoc.
Qed.

(** X20: with a non-empty str for a pattern, [find_file] answers with the
    first hundred matches of the walk, files before directories in each
    directory, names compared in lower case.  A failure of the walk is
    answered as an error only when fewer than a hundred matches were found
    before it. *)
Theorem find_file_first_hundred d pattern :
  dict_get "pattern" d = Some (VStr pattern) ->
  pattern <> "" ->
  find_file h (VDict d) =
    let walk := os_walk h (default (VStr ".") (dict_get "path" d)) in
    let found := all_matches h pattern (items walk) in
    if (100 <=? length found)%nat then Ret (find_response (take 100 found))
    else match stops_with walk with
         | None => Ret (find_response found)
         | Some e => Ret (failure (exn_msg e))
         end.
Proof.
  intros Hpat Hne.
  set (walk := os_walk h (default (VStr ".") (dict_get "path" d))).
  set (found := all_matches h pattern (items walk)).
  cbv zeta. unfold find_file. cbn [get]. rewrite Hpat.
  change (default VNone (Some (VStr pattern))) with (VStr pattern).
  cbn [mbind res_mbind res_bind truthy].
  destruct (String.eqb_spec pattern "") as [|_]; [done |]. cbn [negb].
  fold walk. rewrite (find_in_walk_spec pattern (items walk) (stops_with walk) [])
    by (cbn; lia).
  cbn [app]. fold found.
  destruct (100 <=? length found)%nat; [reflexivity |].
  by destruct (stops_with walk).
Qed.

(** X21: a pattern that is truthy but no str (a number, a list, true)
    fails at the first name the walk yields, with the [AttributeError] of
    [pattern.lower()] for an answer. *)
Theorem find_file_non_str_pattern d pattern root dirs files rest :
  dict_get "pattern" d = Some pattern ->
  truthy pattern = true ->
  (forall s, pattern <> VStr s) ->
  items (os_walk h (default (VStr ".") (dict_get "path" d)))
    = (root, dirs, files) :: rest ->
  files ++ dirs <> [] ->
  find_file h (VDict d) =
    Ret (failure ("'" +:+ type_name pattern
                      +:+ "' object has no attribute 'lower'")).
Proof.
  intros Hpat Htruthy Hnostr Hitems Hnames. unfold find_file. cbn [get].
  rewrite Hpat. change (default VNone (Some pattern)) with pattern.
  cbn [mbind res_mbind res_bind]. rewrite Htruthy. cbn [negb].
  rewrite Hitems. cbn [find_in_walk].
  destruct (files ++ dirs) as [|name names]; [done |].
  cbn [find_in_names].
  destruct pattern; try reflexivity. by destruct (Hnostr s).
Qed.

Lemma network_loop_other stats io_counters name interfaces : forall result,
  name ∉ interfaces.*1 ->
  dict_get name (network_loop stats io_counters interfaces result) =
    dict_get name result.
Proof.
  induction interfaces as [|[interface addresses] rest IH]; intros result Hnot;
    cbn [network_loop]; [reflexivity |].
  cbn [fmap list_fmap fst] in Hnot. apply not_elem_of_cons in Hnot as [Hne Hnot].
  rewrite IH by exact Hnot. by apply dict_get_set_ne.
Qed.

(** X22: when no interface name comes twice, the dict [get_network_info]
    builds maps each interface to its own entry. *)
Theorem network_info_by_interface stats io_counters interfaces name addresses :
  NoDup interfaces.*1 ->
  (name, addresses) ∈ interfaces ->
  dict_get name (network_loop stats io_counters interfaces []) =
    Some (interface_info stats io_counters name addresses).
Proof.
  generalize (@nil (string * value)).
  induction interfaces as [|[interface addrs] rest IH]; intros result Hnodup Hin.
  - by apply elem_of_nil in Hin.
  - cbn [fmap list_fmap fst] in Hnodup. apply NoDup_cons in Hnodup as [Hfresh Hnodup].
    cbn [network_loop]. apply elem_of_cons in Hin as [[= -> ->] | Hin].
    + rewrite network_loop_other by exact Hfresh. apply dict_get_set_eq.
    + by apply IH.
Qed.

End FindFacts.

(** ** Server start-up *)

(** X11: the check is off exactly when no token was passed (or an empty
    one) and [RCE_TOKEN] is unset; an [RCE_TOKEN] that is set but empty
    turns it on, with the empty str for a token. *)
Theorem auth_disabled_iff (h : Host) (token rce_token : option string) :
  auth_token (new_server h token rce_token) = None <->
  (token = None \/ token = Some "") /\ rce_token = None.
Proof.
  cbn [new_server auth_token]. destruct token as [t|].
  - destruct (String.eqb_spec t "") as [->|Hne].
    + split; [intros ->; eauto | by intros [_ ->]].
    + split; [discriminate |]. intros [[? | [= ?]] _]; done.
  - split; [intros ->; eauto | by intros [_ ->]].
Qed.

(** ** The client against the server *)

Section ClientFacts.
Variable h : Host.

Lemma command_data_command token command args :
  dict_get "command" (command_data token command args) = Some (VStr command).
Proof.
  unfold command_data.
  destruct args as [[|binding more]|], token as [t|];
    try destruct (String.eqb t ""); reflexivity.
Qed.

Lemma command_data_token token command args :
  dict_get "token" (command_data token command args) =
    match token with
    | Some t => if String.eqb t "" then None else Some (VStr t)
    | None => None
    end.
Proof.
  unfold command_data.
  destruct args as [[|binding more]|], token as [t|];
    try destruct (String.eqb t ""); reflexivity.
Qed.

Lemma command_data_args token command args :
  args_of (command_data token command args) =
    match args with
    | Some (binding :: more) => VDict (binding :: more)
    | _ => VDict []
    end.
Proof.
  unfold command_data, args_of.
  destruct args as [[|binding more]|], token as [t|];
    try destruct (String.eqb t ""); reflexivity.
Qed.

(** X23: a request built by [send_command] passes the token check of a
    server with a configured token exactly when the client holds the same,
    non-empty token.  A server whose token is the empty str refuses every
    request of this client, since the client leaves an empty token out. *)
Theorem client_token_accepted srv server_token token command args :
  auth_token srv = Some server_token ->
  unauthorized srv
    (default VNone (dict_get "token" (command_data token command args))) = false
  <-> token = Some server_token /\ server_token <> "".
Proof.
  intros Hsrv. unfold unauthorized. rewrite Hsrv, command_data_token.
  rewrite negb_false_iff, eq_str_true.
  destruct token as [t|]; cbn [default].
  - destruct (String.eqb_spec t "") as [->|Hne]; cbn.
    + split; [discriminate |]. by intros [[= <-] ?].
    + split; [by intros [= ->] | by intros [[= ->] _]].
  - split; [discriminate | by intros [? _]].
Qed.

(** X24: the "exit" that [disconnect] sends ends the server's loop for any
    token and any server, with nothing sent back: the client's [recv] then
    sees the closed connection. *)
Theorem client_exit_ends_session srv c token args :
  dispatch h srv c (VDict (command_data token "exit" args)) = ([], Ret true).
Proof.
  unfold dispatch. cbn [get]. rewrite !act_bind_ret, command_data_command.
  reflexivity.
Qed.

(** X25: [fileinfo], [ping] and [findfile] typed with nothing behind them
    reach the server with no usable argument, and its handler refuses
    each by name; for [ping] and [findfile] the request does carry an
    [args] object, holding the empty str. *)
Theorem bare_commands_refused (t : Shell) token :
  (exists args,
     shape_args t "fileinfo" "" = Ret args /\
     get_file_info h (args_of (command_data token "fileinfo" (Some args)))
       = Ret (failure "No path specified")) /\
  (exists args,
     shape_args t "ping" "" = Ret args /\
     dict_get "host" args = Some (VStr "") /\
     ping_host h (args_of (command_data token "ping" (Some args)))
       = Ret (failure "No host specified")) /\
  (exists args,
     shape_args t "findfile" "" = Ret args /\
     dict_get "pattern" args = Some (VStr "") /\
     find_file h (args_of (command_data token "findfile" (Some args)))
       = Ret (failure "No pattern specified")).
Proof.
  repeat split; eexists; (split; [reflexivity |]);
    rewrite ?command_data_args; repeat split; reflexivity.
Qed.

Lemma split_once_spec s :
  no_space (split_once s).1 = true /\
  match (split_once s).2 with
  | Some rest => s = (split_once s).1 +:+ " " +:+ rest
  | None => s = (split_once s).1
  end.
Proof.
  induction s as [|c rest [IHa IHb]]; cbn [split_once]; [done |].
  destruct (is_space c) eqn:Hc.
  - split; [reflexivity |]. cbn. f_equal. unfold is_space in Hc.
    apply Nat.eqb_eq in Hc. rewrite <- (ascii_nat_embedding c), Hc. reflexivity.
  - destruct (split_once rest) as [first more]. cbn [fst snd] in *.
    split; [cbn; by rewrite Hc, IHa |].
    destruct more; rewrite IHb at 1; reflexivity.
Qed.

End ClientFacts.

(** ** The shell *)

Section ShellFacts.
Variable t : Shell.

(** X26: [findfile] cuts its text at the first space: the pattern never
    holds a space, the path is all the rest (spaces included), and the two
    give the text back. *)
Theorem findfile_arguments_split args_str :
  exists pattern args,
    shape_args t "findfile" args_str = Ret args /\
    dict_get "pattern" args = Some (VStr pattern) /\
    no_space pattern = true /\
    ((dict_get "path" args = None /\ args_str = pattern) \/
     (exists path, dict_get "path" args = Some (VStr path) /\
                   args_str = pattern +:+ " " +:+ path)).
Proof.
  destruct (split_once_spec args_str) as [Hpat Hrest].
  cbn [shape_args String.eqb Ascii.eqb Bool.eqb orb].
  destruct (split_once args_str) as [pattern [path|]]; cbn [fst snd] in *.
  - exists pattern. eexists. split; [reflexivity |].
    split; [reflexivity |]. split; [exact Hpat |]. right. by exists path.
  - exists pattern. eexists. split; [reflexivity |].
    split; [reflexivity |]. split; [exact Hpat |]. by left.
Qed.

(** X27: a limit that is not all digits is dropped without a word: the
    request for [processlist] then carries no [args] at all, as if nothing
    had been typed behind the command. *)
Theorem processlist_junk_dropped token args_str :
  sh_isdigit t args_str = false ->
  shape_args t "processlist" args_str = Ret [] /\
  command_data token "processlist" (Some []) =
    command_data token "processlist" None /\
  dict_get "args" (command_data token "processlist" (Some [])) = None.
Proof.
  intros Hdigit. split; [| split].
  - cbn [shape_args String.eqb Ascii.eqb Bool.eqb orb]. rewrite Hdigit.
    by rewrite andb_false_r.
  - reflexivity.
  - unfold command_data. destruct token as [tok|]; [| reflexivity].
    by destruct (String.eqb tok "").
Qed.


End ShellFacts.

(** ** The accept loop *)

Section AcceptFacts.



End AcceptFacts.

(** ** The further properties on the demo machine *)

Section LabRuns.
Import Demo.

Ltac in_list H :=
  repeat (apply elem_of_cons in H as [-> | H]); [.. | by apply elem_of_nil in H].

Lemma invalid_json_replied_witness :
  handle_client host open_mode
    [receives (list_byte_of_string "not json"); hostname_bare] =
  let '(evs, st) := handle_client host open_mode [hostname_bare] in
  (EvSend (wire (failure "Invalid command format")) :: evs, st).
Proof.
  eapply (invalid_json_replied host open_mode
            (receives (list_byte_of_string "not json")) [hostname_bare]).
  - reflexivity.
  - reflexivity.
  - discriminate.
  - vm_compute. reflexivity.
  - vm_compute. reflexivity.
  - reflexivity.
  - vm_compute. reflexivity.
  - reflexivity.
Defined.

Lemma non_object_json_closes_witness :
  handle_client Lab.host Lab.open_mode
    [receives (wire (VList [VInt 1])); hostname_bare] =
  ([EvError (Exn AttributeError
               ("'" +:+ type_name (VList [VInt 1])
                    +:+ "' object has no attribute 'get'"))],
   CLOSED).
Proof.
  eapply (non_object_json_closes Lab.host Lab.open_mode
            (receives (wire (VList [VInt 1]))) [hostname_bare]).
  - reflexivity.
  - reflexivity.
  - discriminate.
  - vm_compute. reflexivity.
  - vm_compute. reflexivity.
  - intros d. discriminate.
Defined.

Lemma unhashable_command_closes_witness :
  handle_client Lab.host Lab.open_mode
    [receives (wire (VDict [("command", VList [VStr "ls"])])); hostname_bare] =
  ([EvError (Exn TypeError
               ("unhashable type: '" +:+ type_name (VList [VStr "ls"]) +:+ "'"))],
   CLOSED).
Proof.
  eapply (unhashable_command_closes Lab.host Lab.open_mode
            (receives (wire (VDict [("command", VList [VStr "ls"])])))
            [hostname_bare] _ _ [("command", VList [VStr "ls"])]).
  - reflexivity.
  - reflexivity.
  - discriminate.
  - vm_compute. reflexivity.
  - vm_compute. reflexivity.
  - reflexivity.
  - by left.
  - reflexivity.
Defined.

Lemma unlisted_command_replied_witness :
  handle_client Lab.host Lab.open_mode
    [receives (wire (VDict [("command", VInt 5)])); hostname_bare] =
  let '(evs, st) := handle_client Lab.host Lab.open_mode [hostname_bare] in
  (EvSend (wire (failure "Unknown command: 5")) :: evs, st).
Proof.
  eapply (unlisted_command_replied Lab.host Lab.open_mode
            (receives (wire (VDict [("command", VInt 5)]))) [hostname_bare]
            _ _ [("command", VInt 5)]).
  - reflexivity.
  - reflexivity.
  - discriminate.
  - vm_compute. reflexivity.
  - vm_compute. reflexivity.
  - reflexivity.
  - reflexivity.
  - reflexivity.
  - vm_compute. reflexivity.
  - reflexivity.
Defined.

Lemma raising_handler_closes_witness :
  handle_client host open_mode
    [receives (wire (request "echo" [("args", VStr "hi")])); hostname_bare] =
  ([EvHandler (VStr "echo")
      (default (VDict []) (dict_get "args" [("command", VStr "echo");
                                            ("args", VStr "hi")]));
    EvError (Exn AttributeError "'str' object has no attribute 'get'")],
   CLOSED).
Proof.
  eapply (raising_handler_closes host open_mode
            (receives (wire (request "echo" [("args", VStr "hi")])))
            [hostname_bare] _ _ [("command", VStr "echo"); ("args", VStr "hi")]
            "echo" echo_message).
  - reflexivity.
  - reflexivity.
  - discriminate.
  - vm_compute. reflexivity.
  - vm_compute. reflexivity.
  - reflexivity.
  - discriminate.
  - reflexivity.
  - reflexivity.
  - reflexivity.
  - discriminate.
Defined.

Lemma known_command_dispatched_witness :
  handle_client Lab.host Lab.secured
    [receives (wire (request "hostname" [("token", VStr "secret")])); exit_wrong] =
  let '(evs, st) := handle_client Lab.host Lab.secured [exit_wrong] in
  (EvHandler (VStr "hostname")
     (default (VDict []) (dict_get "args" [("command", VStr "hostname");
                                           ("token", VStr "secret")]))
     :: EvSend (wire (success (VDict [("hostname", VStr "demo");
                                      ("fqdn", VStr "demo.local")])))
     :: evs, st).
Proof.
  eapply (known_command_dispatched Lab.host Lab.secured
            (receives (wire (request "hostname" [("token", VStr "secret")])))
            [exit_wrong] _ _
            [("command", VStr "hostname"); ("token", VStr "secret")]
            "hostname" (get_hostname Lab.host)).
  - reflexivity.
  - reflexivity.
  - discriminate.
  - vm_compute. reflexivity.
  - vm_compute. reflexivity.
  - reflexivity.
  - discriminate.
  - reflexivity.
  - reflexivity.
  - vm_compute. reflexivity.
  - vm_compute. reflexivity.
  - reflexivity.
Defined.

Lemma only_registered_handlers_run_witness :
  exists name f,
    VStr "echo" = VStr name /\ commands open_mode !! name = Some f.
Proof.
  apply (only_registered_handlers_run host open_mode [echo_hi]
           (VStr "echo") (VDict [("message", VStr "hi")])).
  vm_compute. apply list_elem_of_here.
Defined.

Lemma guarded_handlers_return_witness :
  exists r, list_directory host (VInt 5) = Ret r.
Proof.
  apply (guarded_handlers_return host "listdir" (list_directory host) (VInt 5)).
  - reflexivity.
  - discriminate.
  - discriminate.
Defined.

Lemma required_argument_missing_witness :
  get_file_info host (VDict []) = Ret (failure "No path specified") /\
  ping_host host (VDict [("host", VStr "")]) = Ret (failure "No host specified") /\
  find_file host (VDict [("pattern", VInt 0)])
    = Ret (failure "No pattern specified").
Proof.
  split; [| split].
  - apply (proj1 (required_argument_missing host [])). reflexivity.
  - apply (proj1 (proj2 (required_argument_missing host [("host", VStr "")]))).
    reflexivity.
  - apply (proj2 (proj2 (required_argument_missing host [("pattern", VInt 0)]))).
    reflexivity.
Defined.

Lemma list_directory_lists_all_witness :
  list_directory Lab.host (VDict [("path", VStr "/var/log")]) =
  Ret (success
         (VList (map (listing_entry Lab.host "/var/log" Lab.stats_of)
                   ["app.log"; "archive"]))).
Proof.
  apply (list_directory_lists_all Lab.host [("path", VStr "/var/log")]
           "/var/log" ["app.log"; "archive"] Lab.stats_of).
  - reflexivity.
  - reflexivity.
  - intros file Hin. in_list Hin; reflexivity.
Defined.

Lemma list_directory_all_or_nothing_witness :
  list_directory Lab.host (VDict [("path", VStr "/tmp")]) =
  Ret (failure (exn_msg (Exn OSError "[Errno 2] No such file or directory"))).
Proof.
  apply (list_directory_all_or_nothing Lab.host [("path", VStr "/tmp")]
           "/tmp" ["ok.txt"] "dangling" ["later.txt"] Lab.stats_of).
  - reflexivity.
  - reflexivity.
  - intros file Hin. in_list Hin; reflexivity.
  - reflexivity.
Defined.

Lemma process_loop_skips_witness :
  process_loop (items processes) None [] = Ret ([] ++ visible (items processes)).
Proof.
  apply (process_loop_skips (items processes) []).
  repeat constructor; intros e; try discriminate.
  intros [= <-]. reflexivity.
Defined.

Lemma process_list_fails_on_other_error_witness :
  get_process_list Lab.shaky_host (VDict []) =
  Ret (failure (exn_msg (Exn OSError "[Errno 5] Input/output error"))).
Proof.
  apply (process_list_fails_on_other_error Lab.shaky_host []
           [process 1 "init" 1;
            Raise (Exn AccessDenied "psutil.AccessDenied (pid=2)")]
           (Exn OSError "[Errno 5] Input/output error")
           [process 41 "sshd" 3]).
  - reflexivity.
  - repeat constructor; intros e; try discriminate.
    intros [= <-]. reflexivity.
  - reflexivity.
Defined.

Lemma process_list_default_and_bound_witness :
  get_process_list Lab.busy_host (VDict []) =
    Ret (success (VList (take 10 (map Lab.worker (rev (seq 1 12)))))) /\
  get_process_list Lab.busy_host (VDict [("limit", VInt 3)]) =
    Ret (success (VList (take (Z.to_nat 3) (map Lab.worker (rev (seq 1 12)))))).
Proof.
  split.
  - apply (proj1 (process_list_default_and_bound Lab.busy_host []
                    (map Lab.worker (seq 1 12))
                    (map Lab.worker (rev (seq 1 12)))
                    ltac:(vm_compute; reflexivity)
                    ltac:(vm_compute; reflexivity))).
    reflexivity.
  - apply (proj2 (process_list_default_and_bound Lab.busy_host
                    [("limit", VInt 3)]
                    (map Lab.worker (seq 1 12))
                    (map Lab.worker (rev (seq 1 12)))
                    ltac:(vm_compute; reflexivity)
                    ltac:(vm_compute; reflexivity)) 3).
    + reflexivity.
    + lia.
Defined.

Lemma process_list_rejects_non_integer_limit_witness :
  get_process_list host (VDict [("limit", VStr "5")]) =
  Ret (failure
         "slice indices must be integers or None or have an __index__ method").
Proof.
  eapply (process_list_rejects_non_integer_limit host [("limit", VStr "5")]
            (VStr "5")).
  - reflexivity.
  - apply list_elem_of_here.
  - vm_compute. reflexivity.
  - vm_compute. reflexivity.
Defined.

Lemma find_file_first_hundred_witness :
  find_file host (VDict [("pattern", VStr "LOG"); ("path", VStr "/var/log")]) =
    let walk :=
      os_walk host
        (default (VStr ".")
           (dict_get "path" [("pattern", VStr "LOG"); ("path", VStr "/var/log")])) in
    let found := all_matches host "LOG" (items walk) in
    if (100 <=? length found)%nat then Ret (find_response (take 100 found))
    else match stops_with walk with
         | None => Ret (find_response found)
         | Some e => Ret (failure (exn_msg e))
         end.
Proof.
  apply (find_file_first_hundred host
           [("pattern", VStr "LOG"); ("path", VStr "/var/log")] "LOG").
  - reflexivity.
  - discriminate.
Defined.

(** 151 names under [/var/log] hold "log"; the answer is the first
    hundred files of the first directory. *)
Lemma find_file_first_hundred_run :
  length (all_matches host "LOG" (items (walk (VStr "/var/log")))) = 151%nat /\
  find_file host (VDict [("pattern", VStr "LOG"); ("path", VStr "/var/log")]) =
    Ret (find_response
           (map (match_entry host "/var/log") (take 100 log_files))).
Proof. split; vm_compute; reflexivity. Qed.

Lemma find_file_non_str_pattern_witness :
  find_file host (VDict [("pattern", VInt 5); ("path", VStr "/var/log")]) =
  Ret (failure ("'" +:+ type_name (VInt 5)
                    +:+ "' object has no attribute 'lower'")).
Proof.
  apply (find_file_non_str_pattern host
           [("pattern", VInt 5); ("path", VStr "/var/log")] (VInt 5)
           "/var/log" ["archive"] log_files
           [("/var/log/archive", [], ["old.log"])]).
  - reflexivity.
  - reflexivity.
  - intros s. discriminate.
  - reflexivity.
  - vm_compute. discriminate.
Defined.

Lemma network_info_by_interface_witness :
  dict_get "eth0"
    (network_loop Lab.nic_stats Lab.nic_counters Lab.interfaces []) =
  Some (interface_info Lab.nic_stats Lab.nic_counters "eth0" [Lab.wired]).
Proof.
  apply (network_info_by_interface Lab.nic_stats Lab.nic_counters
           Lab.interfaces "eth0" [Lab.wired]).
  - cbn. apply NoDup_cons. split; [| apply NoDup_singleton].
    intros Hin. apply elem_of_cons in Hin as [Hin | Hin]; [discriminate |].
    by apply elem_of_nil in Hin.
  - apply list_elem_of_further, list_elem_of_here.
Defined.

(** What that entry is: counters, and no status. *)
Lemma network_info_run :
  interface_info Lab.nic_stats Lab.nic_counters "eth0" [Lab.wired] =
  VDict [("addresses", VList [addr_info Lab.wired]); ("is_up", VNone);
         ("bytes_sent", VInt 1024); ("bytes_recv", VInt 4096)].
Proof. vm_compute. reflexivity. Qed.

(** An empty [--token] and no [RCE_TOKEN]: no check. *)
Lemma auth_disabled_iff_witness :
  auth_token (new_server host (Some "") None) = None <->
  (Some "" = None \/ Some "" = Some "") /\ @None string = None.
Proof. apply (auth_disabled_iff host (Some "") None). Defined.

(** [RCE_TOKEN] set to the empty str: the check is on, and a request with
    no token is refused. *)
Lemma empty_rce_token_run :
  auth_token (new_server host None (Some "")) = Some "" /\
  unauthorized (new_server host None (Some "")) VNone = true.
Proof. split; reflexivity. Qed.

Lemma client_token_accepted_witness :
  unauthorized secured
    (default VNone
       (dict_get "token" (command_data (Some "secret") "hostname" None))) = false
  <-> Some "secret" = Some "secret" /\ "secret" <> "".
Proof.
  apply (client_token_accepted secured "secret" (Some "secret") "hostname" None).
  reflexivity.
Defined.

Lemma processlist_junk_dropped_witness :
  shape_args Lab.shell "processlist" "x2" = Ret [] /\
  command_data None "processlist" (Some []) =
    command_data None "processlist" None /\
  dict_get "args" (command_data None "processlist" (Some [])) = None.
Proof.
  apply (processlist_junk_dropped Lab.shell None "x2"). reflexivity.
Defined.


(** The shell on a few lines. *)
Lemma shell_runs :
  parse_line Lab.shell "EXIT now" = Ret Disconnect /\
  parse_line Lab.shell "   " = Ret Ignore /\
  parse_line Lab.shell "findfile log /var/my dir" =
    Ret (Send "findfile" [("pattern", VStr "log"); ("path", VStr "/var/my dir")]) /\
  parse_line Lab.shell "ping 10.0.0.1 3 extra" =
    Ret (Send "ping" [("host", VStr "10.0.0.1"); ("count", VInt 3)]) /\
  parse_line Lab.shell "ping  10.0.0.1" = Ret (Send "ping" [("host", VStr "")]).
Proof. repeat split; vm_compute; reflexivity. Qed.


End LabRuns.
